(** * Sales dashboard: the query catalog and the result normalizer

    A shallow embedding of [dashboard.py].  The script issues four read-only
    SQL queries against two warehouse tables and reshapes the answers with
    pandas.  The queries are embedded as functions over lists of rows with
    SQL's treatment of NULL written out; the Python around them is embedded
    with an explicit outcome type for [try]/[except].

    Numbers: a quantity or a value (a DOUBLE, a pandas float64) is
    represented by the rational it denotes, so sums and quotients of
    quantities are exact; NULL, None and NaN are all [None].  The one place
    where the script computes a bucket from sale ids is modelled in IEEE
    binary64, with the operations of the Standard Library's [SpecFloat]. *)

From Stdlib Require Import List Bool Arith ZArith QArith Qround Qabs Lia.
From Stdlib Require Import Ascii String DecimalString.
From Stdlib Require DecimalN.
From Stdlib Require Import Sorted Permutation Lqa SpecFloat.
Import ListNotations.

Set Implicit Arguments.

(* ------------------------------------------------------------------ *)
(** ** Python: exceptions and [try] / [except Exception] *)

Module Py.

Inductive exn : Type := Exception (msg : string).

Inductive outcome (A : Type) : Type :=
| Ok (a : A)
| Raise (e : exn).
Arguments Ok {A} a.
Arguments Raise {A} e.

Definition bind {A B} (m : outcome A) (k : A -> outcome B) : outcome B :=
  match m with
  | Ok a => k a
  | Raise e => Raise e
  end.

(** [try: body  except Exception as e: handler e] *)
Definition try_except {A} (body : outcome A) (handler : exn -> outcome A)
  : outcome A :=
  match body with
  | Ok a => Ok a
  | Raise e => handler e
  end.

(** [st.error(...)]: reports on the page and returns. *)
Definition st_error (msg : string) : outcome unit := Ok tt.

End Py.

Notation "x <- m ;; k" := (Py.bind m (fun x => k))
  (at level 61, m at next level, right associativity).

(* ------------------------------------------------------------------ *)
(** ** What the script leaves to the systems it runs on *)

Module Platform.

(** Two operations are not the repository's and are not fixed by it: how
    the warehouse engine lower-cases a string (every letter of every
    alphabet, by the engine's own tables), and what numpy's conversion to
    the platform's [int] gives for a double whose integer part does not fit
    32 bits (the value itself where [int] is 64 bits wide and it fits,
    otherwise whatever the processor's conversion leaves).  Both are
    taken as they come. *)
Class runtime : Type := {
  LOWER : string -> string;
  wide_cast : Z -> Z
}.

End Platform.

Export Platform.

(* ------------------------------------------------------------------ *)
(** ** SQL scalar functions on strings *)

Module Sql.

Local Open Scope string_scope.

Definition is_space (c : ascii) : bool := Ascii.eqb c " ".

Fixpoint ltrim (s : string) : string :=
  match s with
  | EmptyString => EmptyString
  | String c s' => if is_space c then ltrim s' else s
  end.

Fixpoint rtrim (s : string) : string :=
  match s with
  | EmptyString => EmptyString
  | String c s' =>
      match rtrim s' with
      | EmptyString => if is_space c then EmptyString else String c EmptyString
      | r => String c r
      end
  end.

(** [TRIM(str)]: leading and trailing space characters removed. *)
Definition TRIM (s : string) : string := rtrim (ltrim s).

Definition lower_ascii (c : ascii) : ascii :=
  let n := nat_of_ascii c in
  if ((65 <=? n) && (n <=? 90))%nat then ascii_of_nat (n + 32) else c.

(** The letters A to Z turned into a to z and every other byte left alone:
    what any engine's [LOWER] does to ASCII text. *)
Fixpoint LOWER_ascii (s : string) : string :=
  match s with
  | EmptyString => EmptyString
  | String c s' => String (lower_ascii c) (LOWER_ascii s')
  end.

Definition LENGTH (s : string) : Z := Z.of_nat (String.length s).

Definition Qlt_bool (x y : Q) : bool := negb (Qle_bool y x).

(** [x > 0] in a WHERE or CASE: a comparison with NULL is not TRUE. *)
Definition gt0 (x : option Q) : bool :=
  match x with
  | Some q => Qlt_bool 0 q
  | None => false
  end.

Definition is_not_null {A} (x : option A) : bool :=
  match x with Some _ => true | None => false end.

(** [a = b] in an ON clause: TRUE only when both sides are present. *)
Definition eq_str (a b : option string) : bool :=
  match a, b with
  | Some x, Some y => String.eqb x y
  | _, _ => false
  end.

(** [a / b]: NULL when an operand is NULL (or the divisor is zero). *)
Definition div (a b : option Q) : option Q :=
  match a, b with
  | Some x, Some y => if Qeq_bool y 0 then None else Some (x / y)
  | _, _ => None
  end.

(** *** Aggregates *)

Fixpoint non_null {A} (l : list (option A)) : list A :=
  match l with
  | [] => []
  | Some a :: l' => a :: non_null l'
  | None :: l' => non_null l'
  end.

Definition total (l : list Q) : Q := fold_right Qplus 0 l.

(** [SUM(col)]: NULLs are skipped; NULL when nothing is left. *)
Definition SUM (l : list (option Q)) : option Q :=
  match non_null l with
  | [] => None
  | vs => Some (total vs)
  end.

(** [AVG(col)] *)
Definition AVG (l : list (option Q)) : option Q :=
  match non_null l with
  | [] => None
  | vs => Some (total vs / inject_Z (Z.of_nat (List.length vs)))
  end.

(** [COUNT(DISTINCT col)]: NULLs are not counted. *)
Definition COUNT_DISTINCT {A} (eq_dec : forall x y : A, {x = y} + {x <> y})
    (l : list (option A)) : Z :=
  Z.of_nat (List.length (nodup eq_dec (non_null l))).

(** [FIRST(col)]: the value of the group's first row. *)
Definition FIRST {A} (l : list (option A)) : option A :=
  match l with
  | [] => None
  | x :: _ => x
  end.

(** *** GROUP BY, ORDER BY, LIMIT *)

Section Relational.
Variables (A K : Type).
Variable eq_dec : forall x y : K, {x = y} + {x <> y}.
Variable key : A -> K.

Definition has_key (k : K) (r : A) : bool :=
  if eq_dec (key r) k then true else false.

(** One group per distinct key, holding the rows of that key. *)
Definition group_by (rows : list A) : list (K * list A) :=
  map (fun k => (k, filter (has_key k) rows))
      (nodup eq_dec (map key rows)).

Variable le : A -> A -> bool.

Fixpoint insert_sorted (x : A) (l : list A) : list A :=
  match l with
  | [] => [x]
  | y :: l' => if le x y then x :: l else y :: insert_sorted x l'
  end.

(** [ORDER BY]: [le x y] says that [x] may come before [y].  An engine
    is free in the order of rows that tie; here they keep their relative
    order, which is one of the orders it may choose. *)
Definition order_by (rows : list A) : list A :=
  fold_right insert_sorted [] rows.

(** [LIMIT n] *)
Definition LIMIT (n : Z) (rows : list A) : list A :=
  firstn (Z.to_nat n) rows.
End Relational.

(** [ORDER BY col DESC] on a nullable number: larger first, NULLs last. *)
Definition desc (a b : option Q) : bool :=
  match a, b with
  | Some x, Some y => Qle_bool y x
  | Some _, None => true
  | None, Some _ => false
  | None, None => true
  end.

Definition desc_Z (a b : Z) : bool := (b <=? a)%Z.

(** Decimal rendering with exactly [width] digits, most significant first. *)
Definition digit (d : Z) : ascii := ascii_of_nat (48 + Z.to_nat (d mod 10)).

Fixpoint zero_padded (width : nat) (n : Z) : string :=
  match width with
  | O => EmptyString
  | S w => (zero_padded w (n / 10) ++ String (digit n) EmptyString)%string
  end.

End Sql.

(* ------------------------------------------------------------------ *)
(** ** The warehouse: two tables behind one connection *)

Module Warehouse.

Record datetime : Type := {
  year : Z; month : Z; day : Z; seconds : Z
}.

(** [DATE(ts)] *)
Definition DATE (t : datetime) : Z * Z * Z := (year t, month t, day t).

Definition date_eq_dec (a b : Z * Z * Z) : {a = b} + {a <> b}.
Proof. repeat decide equality. Defined.

(** [DATE_FORMAT(ts, 'yyyy-MM')] *)
Definition DATE_FORMAT_yyyy_MM (t : datetime) : string :=
  (Sql.zero_padded 4 (year t) ++ "-" ++ Sql.zero_padded 2 (month t))%string.

(** Modelled from the spec: the declaration of table
    [main.default.itens_venda_mm] is not in the repository.  Its columns are
    the ones the queries name (product description, quantity, value, sale
    id, unit, date); each is nullable, as the queries' own [IS NOT NULL]
    tests say. *)
Record itens_venda : Type := {
  descricaoProduto : option string;
  qtde : option Q;
  valor : option Q;
  vendaId : option Z;
  un : option string;
  data : option datetime
}.

(** Modelled from the spec: the declaration of table
    [main.default.produtos_mm] is not in the repository.  Its columns are
    id, description, stock quantity, group and manufacturer code.  [id] is
    the catalog's row key and is taken NOT NULL, which is what the stock
    query's match test [p.id IS NOT NULL] presupposes; the other columns
    are nullable. *)
Record produtos : Type := {
  id : Z;
  descricao : option string;
  estoque : option Q;
  grupo : option string;
  codigo_fab : option string
}.

Record tables : Type := {
  itens_venda_mm : list itens_venda;
  produtos_mm : list produtos
}.

(** What [get_databricks_connection()] hands out when it is not [None]:
    a session that answers queries from its tables, or one on which every
    statement fails. *)
Inductive connection : Type :=
| Serving (w : tables)
| Failing (e : Py.exn).

(** [pd.read_sql(query, connection)] *)
Definition read_sql {A} (query : tables -> A) (c : connection)
  : Py.outcome A :=
  match c with
  | Serving w => Py.Ok (query w)
  | Failing e => Py.Raise e
  end.

End Warehouse.

Import Warehouse.

(* ------------------------------------------------------------------ *)
(** ** [get_total_products] *)

Module Total.

(** [WHERE descricaoProduto IS NOT NULL
     AND LENGTH(TRIM(descricaoProduto)) > 0 AND qtde > 0] *)
Definition qualifies (r : itens_venda) : bool :=
  match descricaoProduto r with
  | Some d => (0 <? Sql.LENGTH (Sql.TRIM d))%Z && Sql.gt0 (qtde r)
  | None => false
  end.

Definition trimmed (r : itens_venda) : option string :=
  option_map Sql.TRIM (descricaoProduto r).

(** The one-row answer of
    [SELECT COUNT(DISTINCT TRIM(descricaoProduto)) as total_produtos]. *)
Definition query (w : tables) : list Z :=
  [Sql.COUNT_DISTINCT string_dec
     (map trimmed (filter qualifies (itens_venda_mm w)))].

Definition get_total_products (connection : option connection)
  : Py.outcome Z :=
  match connection with
  | None => Py.Ok 10%Z
  | Some conn =>
      Py.try_except
        (df <- read_sql query conn ;;
         match df with
         | total_produtos :: _ => Py.Ok total_produtos
         | [] => Py.Ok 10%Z
         end)
        (fun e => _ <- Py.st_error "Erro ao obter total de produtos" ;;
                  Py.Ok 10%Z)
  end.

End Total.

(* ------------------------------------------------------------------ *)
(** ** [get_top_products] and the ranking tab *)

Module Ranking.

Record row : Type := {
  produto : option string;
  quantidade_total : option Q;
  num_vendas : Z;
  valor_total : option Q;
  unidade : option string
}.

Definition key (r : itens_venda) : string :=
  match descricaoProduto r with
  | Some d => Sql.TRIM d
  | None => EmptyString
  end.

(** One output row per [GROUP BY TRIM(descricaoProduto)] group. *)
Definition aggregate (g : string * list itens_venda) : row :=
  {| produto := Some (fst g);
     quantidade_total := Sql.SUM (map qtde (snd g));
     num_vendas := Sql.COUNT_DISTINCT Z.eq_dec (map vendaId (snd g));
     valor_total := Sql.SUM (map valor (snd g));
     unidade := Sql.FIRST (map un (snd g)) |}.

Definition by_quantidade_desc (a b : row) : bool :=
  Sql.desc (quantidade_total a) (quantidade_total b).

(** The ranking query.  A negative [limit] is rejected by the engine and
    the caller then returns the empty frame, which is also what [LIMIT]
    gives here. *)
Definition query (limit : Z) (w : tables) : list row :=
  Sql.LIMIT limit
    (Sql.order_by by_quantidade_desc
       (map aggregate
          (Sql.group_by string_dec key
             (filter Total.qualifies (itens_venda_mm w))))).

(** [pd.to_numeric(col, errors='coerce')] on a column that arrives as
    DOUBLE: numbers stay, NULL becomes NaN. *)
Definition to_numeric (x : option Q) : option Q := x.

Definition coerce (r : row) : row :=
  {| produto := produto r;
     quantidade_total := to_numeric (quantidade_total r);
     num_vendas := num_vendas r;
     valor_total := to_numeric (valor_total r);
     unidade := unidade r |}.

(** [df.dropna(subset=['produto', 'quantidade_total'])] *)
Definition has_required (r : row) : bool :=
  Sql.is_not_null (produto r) && Sql.is_not_null (quantidade_total r).

Definition dropna (df : list row) : list row := filter has_required df.

Definition get_top_products (connection : option connection) (limit : Z)
  : Py.outcome (list row) :=
  match connection with
  | None => Py.Ok []
  | Some conn =>
      Py.try_except
        (df <- read_sql (query limit) conn ;;
         match df with
         | [] => Py.Ok df
         | _ => Py.Ok (dropna (map coerce df))
         end)
        (fun e => _ <- Py.st_error "Erro na query" ;; Py.Ok [])
  end.

End Ranking.

(* ------------------------------------------------------------------ *)
(** ** The currency column of the ranking tab *)

Module Currency.

Local Open Scope string_scope.

(** Nearest integer, ties to the even one: the rounding of Python's
    fixed-point formatting, applied to the exact value. *)
Definition round_half_even (q : Q) : Z :=
  let f := Qfloor q in
  match ((q - inject_Z f) ?= (1 # 2))%Q with
  | Lt => f
  | Gt => (f + 1)%Z
  | Eq => if Z.even f then f else (f + 1)%Z
  end.

Definition digits (n : Z) : string :=
  NilEmpty.string_of_uint (N.to_uint (Z.to_N n)).

(** Walks the digits from the least significant one and puts a separator
    after every third. *)
Fixpoint grouped_rev (sep : ascii) (l : list ascii) (k : nat) : list ascii :=
  match l with
  | [] => []
  | c :: l' =>
      match k with
      | 3%nat => sep :: c :: grouped_rev sep l' 1
      | _ => c :: grouped_rev sep l' (S k)
      end
  end.

Definition grouped (sep : ascii) (s : string) : string :=
  string_of_list_ascii
    (rev (grouped_rev sep (rev (list_ascii_of_string s)) 0)).

(** Sign, integer part in groups of three, decimal mark, two decimals. *)
Definition fixed2 (thousands decimal : ascii) (v : Q) : string :=
  let cents := round_half_even (Qabs v * 100)%Q in
  (if Sql.Qlt_bool v 0%Q then "-" else EmptyString)
    ++ grouped thousands (digits (cents / 100))
    ++ String decimal (Sql.zero_padded 2 (cents mod 100)).

(** [f"{v:,.2f}"] *)
Definition format_comma_2f (v : Q) : string := fixed2 "," "." v.

(** [s.replace(old, new)] for one-character [old] and [new]. *)
Fixpoint replace (old new : ascii) (s : string) : string :=
  match s with
  | EmptyString => EmptyString
  | String c s' =>
      String (if Ascii.eqb c old then new else c) (replace old new s')
  end.

(** [lambda v: f"R$ {v:,.2f}".replace(",", "X").replace(".", ",")
               .replace("X", ".") if pd.notnull(v) else "-"] *)
Definition valor_total_formatado (v : option Q) : string :=
  match v with
  | Some q =>
      replace "X" "." (replace "." "," (replace "," "X"
        ("R$ " ++ format_comma_2f q)))
  | None => "-"
  end.

End Currency.

Module RankingTab.

Import Ranking.

(** Lines 377-381: drop rows without product or quantity, coerce the
    quantity once more and drop what that leaves empty. *)
Definition produtos_top_clean (produtos_top : list row) : list row :=
  filter (fun r => Sql.is_not_null (quantidade_total r))
    (map (fun r =>
            {| produto := produto r;
               quantidade_total := to_numeric (quantidade_total r);
               num_vendas := num_vendas r;
               valor_total := valor_total r;
               unidade := unidade r |})
         (dropna produtos_top)).

(** The records handed to the chart: each row with its formatted value. *)
Definition vega_data (produtos_top : list row) : list (row * string) :=
  map (fun r => (r, Currency.valor_total_formatado (valor_total r)))
      (produtos_top_clean produtos_top).

(** What the tab hands to the chart when [pd.read_sql] returned [df]:
    lines 171-177 of [get_top_products], then the [else] branch of the
    tab. *)
Definition shown (df : list row) : list (row * string) :=
  match df with
  | [] => []
  | _ =>
      match dropna (map coerce df) with
      | [] => []
      | produtos_top => vega_data produtos_top
      end
  end.

Definition tab1 (connection : option connection) (top_n : Z)
  : Py.outcome (list (row * string)) :=
  produtos_top <- get_top_products connection top_n ;;
  match produtos_top with
  | [] => Py.Ok []
  | _ => Py.Ok (vega_data produtos_top)
  end.

End RankingTab.

(* ------------------------------------------------------------------ *)
(** ** The top-N controls *)

Module Controls.

(** [top_n = top_n_input if top_n_input != top_n_slider else top_n_slider] *)
Definition top_n (top_n_input top_n_slider : Z) : Z :=
  if negb (top_n_input =? top_n_slider)%Z then top_n_input
  else top_n_slider.

End Controls.

(* ------------------------------------------------------------------ *)
(** ** [get_seasonality_data] *)

Module Seasonality.

Local Open Scope string_scope.

Record row : Type := {
  produto : string;
  mes : string;
  quantidade : option Q
}.

Definition named (r : itens_venda) : bool :=
  Sql.is_not_null (descricaoProduto r).

Definition name (r : itens_venda) : string :=
  match descricaoProduto r with
  | Some d => d
  | None => EmptyString
  end.

(** [WITH top_produtos AS (... GROUP BY descricaoProduto
     ORDER BY SUM(qtde) DESC LIMIT top_n)] *)
Definition top_produtos (top_n : Z) (w : tables) : list string :=
  map fst
    (Sql.LIMIT top_n
       (Sql.order_by
          (fun a b => Sql.desc (Sql.SUM (map qtde (snd a)))
                               (Sql.SUM (map qtde (snd b))))
          (Sql.group_by string_dec name
             (filter named (itens_venda_mm w))))).

(** [descricaoProduto IN (SELECT descricaoProduto FROM top_produtos)] *)
Definition is_in (tops : list string) (r : itens_venda) : bool :=
  match descricaoProduto r with
  | Some d => existsb (String.eqb d) tops
  | None => false
  end.

Definition month_key (r : itens_venda) : string * string :=
  (name r,
   match data r with
   | Some t => DATE_FORMAT_yyyy_MM t
   | None => EmptyString
   end).

Definition pair_eq_dec (a b : string * string) : {a = b} + {a <> b}.
Proof. decide equality; apply string_dec. Defined.

(** [ORDER BY mes, produto] *)
Definition by_mes_produto (a b : row) : bool :=
  String.ltb (mes a) (mes b)
  || (String.eqb (mes a) (mes b) && String.leb (produto a) (produto b)).

(** The primary query: quantity per product and calendar month. *)
Definition query (top_n : Z) (w : tables) : list row :=
  let tops := top_produtos top_n w in
  Sql.order_by by_mes_produto
    (map (fun g => {| produto := fst (fst g);
                      mes := snd (fst g);
                      quantidade := Sql.SUM (map qtde (snd g)) |})
       (Sql.group_by pair_eq_dec month_key
          (filter (fun r => is_in tops r && Sql.is_not_null (data r))
             (itens_venda_mm w)))).

(** *** The fallback on sale ids *)

Record alt_row : Type := {
  alt_produto : string;
  alt_vendaId : option Z;
  alt_quantidade : option Q
}.

(** [top_produtos] of [query_alt]: ranked by [COUNT( * )]. *)
Definition top_produtos_alt (top_n : Z) (w : tables) : list string :=
  map fst
    (Sql.LIMIT top_n
       (Sql.order_by
          (fun a b => Sql.desc_Z (Z.of_nat (List.length (snd a)))
                                 (Z.of_nat (List.length (snd b))))
          (Sql.group_by string_dec name
             (filter named (itens_venda_mm w))))).

(** [FROM itens_venda_mm iv INNER JOIN top_produtos tp
     ON iv.descricaoProduto = tp.descricaoProduto] *)
Definition query_alt (top_n : Z) (w : tables) : list alt_row :=
  let tops := top_produtos_alt top_n w in
  flat_map
    (fun iv =>
       map (fun tp => {| alt_produto := tp;
                         alt_vendaId := vendaId iv;
                         alt_quantidade := qtde iv |})
           (filter (fun tp => Sql.eq_str (descricaoProduto iv) (Some tp))
                   tops))
    (itens_venda_mm w).

(** [df['vendaId'].max()]: missing values are skipped. *)
Definition max_venda (df : list alt_row) : option Z :=
  match Sql.non_null (map alt_vendaId df) with
  | [] => None
  | i :: l => Some (fold_right Z.max i l)
  end.

(** A sale id as the double numpy divides with: the nearest one, ties to
    the even mantissa. *)
Definition float64 (z : Z) : spec_float := binary_normalize 53 1024 z 0 false.

(** [vendaId / max_venda * 12] in binary64. *)
Definition scaled (vendaId max_venda : Z) : spec_float :=
  SFmul 53 1024
    (SFdiv 53 1024 (float64 vendaId) (float64 max_venda))
    (float64 12).

(** The integer part of a finite double, the fraction cut off toward
    zero; nothing for a NaN or an infinity. *)
Definition truncated (x : spec_float) : option Z :=
  match x with
  | S754_zero _ => Some 0%Z
  | S754_finite s m e =>
      let magnitude :=
        if (0 <=? e)%Z then (Z.pos m * 2 ^ e)%Z
        else (Z.pos m / 2 ^ (- e))%Z in
      Some (if s then (- magnitude)%Z else magnitude)
  | _ => None
  end.

Section Cast.
Context {rt : runtime}.

(** [.astype(int)] on one value: pandas raises on a NaN or an infinity;
    a finite value loses its fraction, and beyond 32 bits the result is
    the platform's. *)
Definition astype_int (x : spec_float) : Py.outcome Z :=
  match truncated x with
  | None => Py.Raise (Py.Exception "Cannot convert non-finite values")
  | Some t => if (Z.abs t <? 2 ^ 31)%Z then Py.Ok t else Py.Ok (wide_cast t)
  end.

(** [(vendaId / max_venda * 12).astype(int) % 12 + 1]; [%] with a positive
    right operand is never negative. *)
Definition mes_num (vendaId max_venda : Z) : Py.outcome Z :=
  t <- astype_int (scaled vendaId max_venda) ;;
  Py.Ok (t mod 12 + 1)%Z.

(** One cell of the [mes_num] column.  A missing id, or a missing maximum,
    is a NaN in the column; a maximum of zero makes the quotient a NaN or
    an infinity. *)
Definition mes_num_cell (max_venda : option Z) (r : alt_row)
  : Py.outcome Z :=
  match alt_vendaId r, max_venda with
  | Some i, Some m => mes_num i m
  | _, _ => Py.Raise (Py.Exception "Cannot convert non-finite values")
  end.

End Cast.

Fixpoint column (f : alt_row -> Py.outcome Z) (df : list alt_row)
  : Py.outcome (list (alt_row * Z)) :=
  match df with
  | [] => Py.Ok []
  | r :: df' =>
      b <- f r ;;
      rest <- column f df' ;;
      Py.Ok ((r, b) :: rest)
  end.

(** The frame with its [mes_num] column. *)
Definition with_mes_num {rt : runtime} (df : list alt_row)
  : Py.outcome (list (alt_row * Z)) :=
  column (mes_num_cell (max_venda df)) df.

(** [pd.to_datetime(mes_num, format='%m').dt.strftime('2024-%m')] *)
Definition mes_of (mes_num : Z) : string :=
  "2024-" ++ Sql.zero_padded 2 mes_num.

Definition synth_key (x : alt_row * Z) : string * string :=
  (alt_produto (fst x), mes_of (snd x)).

Definition by_produto_mes (a b : row) : bool :=
  String.ltb (produto a) (produto b)
  || (String.eqb (produto a) (produto b) && String.leb (mes a) (mes b)).

(** [df.groupby(['produto', 'mes'])['quantidade'].sum().reset_index()]:
    groups in key order; missing quantities count as nothing. *)
Definition groupby_sum (df : list (alt_row * Z)) : list row :=
  Sql.order_by by_produto_mes
    (map (fun g =>
            {| produto := fst (fst g);
               mes := snd (fst g);
               quantidade :=
                 Some (Sql.total
                   (Sql.non_null
                      (map (fun x => alt_quantidade (fst x)) (snd g)))) |})
       (Sql.group_by pair_eq_dec synth_key df)).

Definition synthesize {rt : runtime} (df : list alt_row)
  : Py.outcome (list row) :=
  cols <- with_mes_num df ;;
  Py.Ok (groupby_sum cols).

Definition get_seasonality_data {rt : runtime}
    (connection : option connection) (top_n : Z) : Py.outcome (list row) :=
  match connection with
  | None => Py.Ok []
  | Some conn =>
      Py.try_except
        (df <- read_sql (query top_n) conn ;;
         match df with
         | [] =>
             df_alt <- read_sql (query_alt top_n) conn ;;
             match df_alt with
             | [] => Py.Ok []
             | _ => synthesize df_alt
             end
         | _ => Py.Ok df
         end)
        (fun e => _ <- Py.st_error "Erro" ;; Py.Ok [])
  end.

End Seasonality.

(* ------------------------------------------------------------------ *)
(** ** [analyze_stock] *)

Module Stock.

Local Open Scope string_scope.

(** A row of [vendas_com_media_dia], the [v] of the final SELECT. *)
Record resumo : Type := {
  v_descricaoProduto : string;
  v_total_vendido : option Q;
  v_media_venda : option Q;
  v_dias_com_venda : Z;
  v_num_vendas : Z;
  v_media_venda_dia : option Q
}.

(** [CASE WHEN dias_com_venda > 0 THEN total_vendido / dias_com_venda
          ELSE total_vendido / 30.0 END] *)
Definition media_dia (total_vendido : option Q) (dias_com_venda : Z)
  : option Q :=
  if (0 <? dias_com_venda)%Z
  then Sql.div total_vendido (Some (inject_Z dias_com_venda))
  else Sql.div total_vendido (Some 30%Q).

(** [WHERE descricaoProduto IS NOT NULL AND data IS NOT NULL] *)
Definition dated (r : itens_venda) : bool :=
  Sql.is_not_null (descricaoProduto r) && Sql.is_not_null (data r).

Definition dias (g : list itens_venda) : Z :=
  Sql.COUNT_DISTINCT date_eq_dec (map (fun r => option_map DATE (data r)) g).

Definition summarize (g : string * list itens_venda) : resumo :=
  let total := Sql.SUM (map qtde (snd g)) in
  {| v_descricaoProduto := fst g;
     v_total_vendido := total;
     v_media_venda := Sql.AVG (map qtde (snd g));
     v_dias_com_venda := dias (snd g);
     v_num_vendas := Sql.COUNT_DISTINCT Z.eq_dec (map vendaId (snd g));
     v_media_venda_dia := media_dia total (dias (snd g)) |}.

Definition by_total_desc (a b : resumo) : bool :=
  Sql.desc (v_total_vendido a) (v_total_vendido b).

(** [vendas_resumo] with the per-day column of [vendas_com_media_dia]. *)
Definition vendas_com_media_dia (top_n : Z) (w : tables) : list resumo :=
  Sql.LIMIT top_n
    (Sql.order_by by_total_desc
       (map summarize
          (Sql.group_by string_dec Seasonality.name
             (filter dated (itens_venda_mm w))))).

Record row : Type := {
  produto : string;
  total_vendido : option Q;
  media_venda : option Q;
  media_venda_dia : option Q;
  num_vendas : Z;
  status_estoque : string;
  descricao_cadastro : option string;
  quantidade_estoque : option Q;
  grupo : option string;
  codigo_fab : option string;
  dias_estoque : option Q
}.

Section Join.
Context {rt : runtime}.

(** [LOWER(TRIM(s))], the engine's [LOWER]. *)
Definition folded (s : string) : string := LOWER (Sql.TRIM s).

(** [ON LOWER(TRIM(v.descricaoProduto)) = LOWER(TRIM(p.descricao))] *)
Definition matches (v : resumo) (p : produtos) : bool :=
  Sql.eq_str (Some (folded (v_descricaoProduto v)))
             (option_map folded (descricao p)).

(** The SELECT list over one joined pair; [p = None] is the row the left
    join pads with NULLs, the only one on which [p.id IS NOT NULL] fails. *)
Definition select (v : resumo) (p : option produtos) : row :=
  {| produto := v_descricaoProduto v;
     total_vendido := v_total_vendido v;
     media_venda := v_media_venda v;
     media_venda_dia := v_media_venda_dia v;
     num_vendas := v_num_vendas v;
     status_estoque :=
       match p with
       | Some _ => "Em Estoque"
       | None => "Sem Estoque"
       end;
     descricao_cadastro :=
       match p with Some c => descricao c | None => None end;
     quantidade_estoque :=
       match p with Some c => estoque c | None => None end;
     grupo :=
       match p with Some c => Warehouse.grupo c | None => None end;
     codigo_fab :=
       match p with Some c => Warehouse.codigo_fab c | None => None end;
     dias_estoque :=
       match p with
       | Some c =>
           if Sql.is_not_null (estoque c) && Sql.gt0 (v_media_venda_dia v)
           then Sql.div (estoque c) (v_media_venda_dia v)
           else None
       | None => None
       end |}.

(** [FROM v LEFT JOIN produtos_mm p ON ...] *)
Definition left_join (vs : list resumo) (ps : list produtos) : list row :=
  flat_map
    (fun v =>
       match filter (matches v) ps with
       | [] => [select v None]
       | found => map (fun p => select v (Some p)) found
       end)
    vs.

End Join.

Definition by_total_vendido_desc (a b : row) : bool :=
  Sql.desc (total_vendido a) (total_vendido b).

Definition query {rt : runtime} (top_n : Z) (w : tables) : list row :=
  Sql.order_by by_total_vendido_desc
    (left_join (vendas_com_media_dia top_n w) (produtos_mm w)).

Definition analyze_stock {rt : runtime}
    (connection : option connection) (top_n : Z) : Py.outcome (list row) :=
  match connection with
  | None => Py.Ok []
  | Some conn =>
      Py.try_except
        (df <- read_sql (query top_n) conn ;; Py.Ok df)
        (fun e => _ <- Py.st_error "Erro" ;; Py.Ok [])
  end.

End Stock.

(* ------------------------------------------------------------------ *)
(** ** Vocabulary of the statements, and a small warehouse to run them on *)

Module Spec.

Local Open Scope string_scope.

Definition no_tables : tables := {| itens_venda_mm := []; produtos_mm := [] |}.

(** The tables a connection answers from; nothing when there is no
    connection or the session fails. *)
Definition tables_of (c : option connection) : tables :=
  match c with
  | Some (Serving w) => w
  | _ => no_tables
  end.

(** The runtime the examples are evaluated on: ASCII names, and a 64-bit
    [int] on a processor whose conversion leaves the smallest integer when
    the value does not fit. *)
Definition lab : runtime :=
  {| LOWER := Sql.LOWER_ascii;
     wide_cast := fun t =>
       if (Z.abs t <? 2 ^ 63)%Z then t else (- 2 ^ 63)%Z |}.

(** The match rule of the stock join, seen from a sale's product name. *)
Definition name_match {rt : runtime} (sale_name : string) (p : produtos)
  : Prop :=
  exists d, descricao p = Some d /\ Stock.folded d = Stock.folded sale_name.

(** The engine's [LOWER] folds at least the letters A to Z: lowering them
    beforehand changes nothing. *)
Definition folds_ascii {rt : runtime} : Prop :=
  forall s, LOWER (Sql.LOWER_ascii s) = LOWER s.



(** The sale lines the stock query aggregates, one group per product. *)
Definition stock_groups (c : option connection)
  : list (string * list itens_venda) :=
  Sql.group_by string_dec Seasonality.name
    (filter Stock.dated (itens_venda_mm (tables_of c))).

(** The sale lines of one product that carry a date, in table order. *)
Definition dated_lines_of (w : tables) (product : string)
  : list itens_venda :=
  filter (fun x =>
            match descricaoProduto x, data x with
            | Some d, Some _ => String.eqb d product
            | _, _ => false
            end)
         (itens_venda_mm w).

(** All the sale lines of one product, dated or not. *)
Definition lines_of (w : tables) (product : string) : list itens_venda :=
  filter (fun x =>
            match descricaoProduto x with
            | Some d => String.eqb d product
            | None => false
            end)
         (itens_venda_mm w).

(** [d] is the number of distinct calendar days on which one of the lines
    was sold: the size of a duplicate-free list of exactly those days. *)
Definition distinct_sale_days (lines : list itens_venda) (d : Z) : Prop :=
  exists days : list (Z * Z * Z),
    NoDup days
    /\ (forall day, In day days <->
          exists x t, In x lines /\ data x = Some t /\ DATE t = day)
    /\ d = Z.of_nat (List.length days).

Definition on_day (y m d : Z) : option datetime :=
  Some {| year := y; month := m; day := d; seconds := 0 |}.

Definition sale (name : string) (q v : Z) (venda : Z)
    (when : option datetime) : itens_venda :=
  {| descricaoProduto := Some name;
     qtde := Some (inject_Z q);
     valor := Some (inject_Z v);
     vendaId := Some venda;
     un := Some "UN";
     data := when |}.

Definition demo : tables :=
  {| itens_venda_mm :=
       [ sale "Arruela" 30 15 1 (on_day 2024 3 1);
         sale "Parafuso" 20 40 1 (on_day 2024 3 1);
         sale "Porca" 20 10 2 (on_day 2024 3 2);
         sale "Parafuso" 30 60 3 (on_day 2024 3 5) ];
     produtos_mm :=
       [ {| id := 7; descricao := Some "  PARAFUSO ";
            estoque := Some (inject_Z 100);
            Warehouse.grupo := Some "Fixadores";
            Warehouse.codigo_fab := Some "PF-01" |};
         {| id := 9; descricao := Some "Porca";
            estoque := None;
            Warehouse.grupo := None;
            Warehouse.codigo_fab := None |} ] |}.

Definition demo_connection : option connection := Some (Serving demo).

(** The catalog row of the demo tables that is written in capitals. *)
Definition catalog_parafuso : produtos :=
  {| id := 7; descricao := Some "  PARAFUSO ";
     estoque := Some (inject_Z 100);
     Warehouse.grupo := Some "Fixadores";
     Warehouse.codigo_fab := Some "PF-01" |}.

(** The bucket as the specification words it, with a floor. *)
Definition floor_bucket (saleId maxSaleId : Z) : Z :=
  (Qfloor (inject_Z saleId / inject_Z maxSaleId * 12)%Q mod 12 + 1)%Z.

(** The number a finite double stands for. *)
Definition double_value (x : spec_float) : option Q :=
  match x with
  | S754_zero _ => Some 0%Q
  | S754_finite s m e =>
      let magnitude :=
        if (0 <=? e)%Z then inject_Z (Z.pos m * 2 ^ e)
        else Z.pos m # Z.to_pos (2 ^ (- e)) in
      Some (if s then (- magnitude)%Q else magnitude)
  | _ => None
  end.

(** The integer next to a rational on the side of zero. *)
Definition toward_zero (q : Q) : Z := Z.quot (Qnum q) (Z.pos (Qden q)).

(** [m] is the largest sale id of the frame. *)
(** [saleId / maxSaleId * 12] in binary64, spelled with the library's
    operations. *)
Definition ratio_times_12 (saleId maxSaleId : Z) : spec_float :=
  SFmul 53 1024
    (SFdiv 53 1024 (binary_normalize 53 1024 saleId 0 false)
                   (binary_normalize 53 1024 maxSaleId 0 false))
    (binary_normalize 53 1024 12 0 false).

Definition largest_id (df : list Seasonality.alt_row) (m : Z) : Prop :=
  In (Some m) (map Seasonality.alt_vendaId df)
  /\ forall j, In (Some j) (map Seasonality.alt_vendaId df) -> (j <= m)%Z.

(** A record gets no bucket when it has no sale id, or when its product
    is not a finite number. *)
Definition no_bucket_for (df : list Seasonality.alt_row)
    (r : Seasonality.alt_row) : Prop :=
  Seasonality.alt_vendaId r = None
  \/ exists i m,
       Seasonality.alt_vendaId r = Some i
       /\ largest_id df m
       /\ double_value (ratio_times_12 i m) = None.

Definition cell_value (o : Py.outcome Z) : Z :=
  match o with
  | Py.Ok b => b
  | Py.Raise _ => 0%Z
  end.

(** Sale lines without a date, so that only the fallback can answer. *)
Definition undated_sale (venda : Z) : itens_venda :=
  {| descricaoProduto := Some "Prego";
     qtde := Some (inject_Z 1);
     valor := None;
     vendaId := Some venda;
     un := None;
     data := None |}.

(** An undated sale line of a second product. *)
Definition undated_other (venda : Z) : itens_venda :=
  {| descricaoProduto := Some "Rebite";
     qtde := Some (inject_Z 1);
     valor := None;
     vendaId := Some venda;
     un := None;
     data := None |}.

Definition undated : tables :=
  {| itens_venda_mm :=
       [undated_sale (-1); undated_sale 10; undated_other 5];
     produtos_mm := [] |}.

Definition undated_alt (venda : Z) : Seasonality.alt_row :=
  {| Seasonality.alt_produto := "Prego";
     Seasonality.alt_vendaId := Some venda;
     Seasonality.alt_quantidade := Some (inject_Z 1) |}.

Definition undated_other_alt (venda : Z) : Seasonality.alt_row :=
  {| Seasonality.alt_produto := "Rebite";
     Seasonality.alt_vendaId := Some venda;
     Seasonality.alt_quantidade := Some (inject_Z 1) |}.

(** The fallback frame of [undated], and that frame with its buckets. *)
Definition undated_frame : list Seasonality.alt_row :=
  [undated_alt (-1); undated_alt 10; undated_other_alt 5].

Definition undated_buckets : list (Seasonality.alt_row * Z) :=
  [(undated_alt (-1), 12%Z); (undated_alt 10, 1%Z);
   (undated_other_alt 5, 7%Z)].

Definition is_digit (c : ascii) : bool :=
  ((48 <=? nat_of_ascii c) && (nat_of_ascii c <=? 57))%nat.

Definition all_digits (s : string) : Prop :=
  Forall (fun c => is_digit c = true) (list_ascii_of_string s).

(** The three replacements of the formatter, on one character. *)
Definition swap_char (c : ascii) : ascii :=
  let c1 := if Ascii.eqb c "," then "X"%char else c in
  let c2 := if Ascii.eqb c1 "." then ","%char else c1 in
  if Ascii.eqb c2 "X" then "."%char else c2.

Definition swap (s : string) : string :=
  Currency.replace "X" "." (Currency.replace "." ","
    (Currency.replace "," "X" s)).

(** No space in front. *)
Definition starts_clean (s : string) : Prop :=
  match s with
  | EmptyString => True
  | String c _ => Sql.is_space c = false
  end.

(** Larger quantity first, both quantities present. *)
Definition qty_desc (a b : Ranking.row) : Prop :=
  match Ranking.quantidade_total a, Ranking.quantidade_total b with
  | Some x, Some y => (y <= x)%Q
  | _, _ => False
  end.

(** The groups of the ranking query: the qualifying sale lines, one group
    per trimmed product name. *)
Definition ranking_groups (w : tables) : list (string * list itens_venda) :=
  Sql.group_by string_dec Ranking.key
    (filter Total.qualifies (itens_venda_mm w)).

(** A row an engine may return for a group: the aggregates of the group,
    with the unit of any one of its lines. *)
Definition answers (r : Ranking.row) (g : string * list itens_venda)
  : Prop :=
  Ranking.produto r = Some (fst g)
  /\ Ranking.quantidade_total r = Sql.SUM (map qtde (snd g))
  /\ Ranking.num_vendas r
     = Sql.COUNT_DISTINCT Z.eq_dec (map vendaId (snd g))
  /\ Ranking.valor_total r = Sql.SUM (map valor (snd g))
  /\ In (Ranking.unidade r) (map un (snd g)).

(** What an engine may answer to the ranking query with a given limit:
    one such row per group, in some order that is descending in the
    quantity, cut at the limit.  Rows that tie may come in any order. *)
Definition ranking_answer (limit : Z) (w : tables) (df : list Ranking.row)
  : Prop :=
  exists ordered gs,
    Permutation gs (ranking_groups w)
    /\ Forall2 answers ordered gs
    /\ StronglySorted qty_desc ordered
    /\ df = firstn (Z.to_nat limit) ordered.

(** No two products sold the same total quantity. *)
Definition no_ties (w : tables) : Prop :=
  forall g g',
    In g (ranking_groups w) -> In g' (ranking_groups w) -> g <> g' ->
    forall x y,
      Sql.SUM (map qtde (snd g)) = Some x ->
      Sql.SUM (map qtde (snd g')) = Some y ->
      ~ (x == y)%Q.

(** The columns of a ranking row that the data determine. *)
Definition determined (r : Ranking.row)
  : option string * option Q * Z * option Q :=
  (Ranking.produto r, Ranking.quantidade_total r, Ranking.num_vendas r,
   Ranking.valor_total r).

(** Two products; the sale line of one of them has a NULL value. *)
Definition unpriced : tables :=
  {| itens_venda_mm :=
       [ {| descricaoProduto := Some "Prego";
            qtde := Some (inject_Z 5);
            valor := None;
            vendaId := Some 1%Z;
            un := Some "KG";
            data := None |};
         sale "Arruela" 3 6 2 (on_day 2024 3 1) ];
     produtos_mm := [] |}.

Definition arruela_priced : Ranking.row :=
  {| Ranking.produto := Some "Arruela";
     Ranking.quantidade_total := Some (inject_Z 3);
     Ranking.num_vendas := 1;
     Ranking.valor_total := Some (inject_Z 6);
     Ranking.unidade := Some "UN" |}.

(** A row that names its product and carries a quantity. *)
Definition identified (r : Ranking.row) : bool :=
  match Ranking.produto r, Ranking.quantidade_total r with
  | Some _, Some _ => true
  | _, _ => false
  end.

(** A frame as the cleaning steps may be handed: one row lacks its
    quantity, one its product, one only its value. *)
Definition ragged_frame : list Ranking.row :=
  [ {| Ranking.produto := Some "Broca";
       Ranking.quantidade_total := None;
       Ranking.num_vendas := 1;
       Ranking.valor_total := Some (inject_Z 9);
       Ranking.unidade := None |};
    {| Ranking.produto := None;
       Ranking.quantidade_total := Some (inject_Z 4);
       Ranking.num_vendas := 1;
       Ranking.valor_total := Some (inject_Z 8);
       Ranking.unidade := None |};
    {| Ranking.produto := Some "Prego";
       Ranking.quantidade_total := Some (inject_Z 5);
       Ranking.num_vendas := 1;
       Ranking.valor_total := None;
       Ranking.unidade := Some "KG" |} ].

(** Two products, one of which was never sold on a known date. *)
Definition never_dated : tables :=
  {| itens_venda_mm :=
       [ {| descricaoProduto := Some "Prego";
            qtde := Some (inject_Z 90);
            valor := Some (inject_Z 45);
            vendaId := Some 1%Z;
            un := Some "KG";
            data := None |};
         sale "Arruela" 30 15 2 (on_day 2024 3 1) ];
     produtos_mm := [] |}.

Definition top_parafuso : Ranking.row :=
  {| Ranking.produto := Some "Parafuso";
     Ranking.quantidade_total := Some (inject_Z 50);
     Ranking.num_vendas := 2;
     Ranking.valor_total := Some (inject_Z 100);
     Ranking.unidade := Some "UN" |}.

Definition top_arruela : Ranking.row :=
  {| Ranking.produto := Some "Arruela";
     Ranking.quantidade_total := Some (inject_Z 30);
     Ranking.num_vendas := 1;
     Ranking.valor_total := Some (inject_Z 15);
     Ranking.unidade := Some "UN" |}.

Definition prego : Ranking.row :=
  {| Ranking.produto := Some "Prego";
     Ranking.quantidade_total := Some (inject_Z 5);
     Ranking.num_vendas := 1;
     Ranking.valor_total := None;
     Ranking.unidade := Some "KG" |}.

(** The first row [analyze_stock] returns on [demo]. *)
Definition demo_parafuso : Stock.row :=
  {| Stock.produto := "Parafuso";
     Stock.total_vendido := Some (inject_Z 50);
     Stock.media_venda := Some (50 # 2);
     Stock.media_venda_dia := Some (50 # 2);
     Stock.num_vendas := 2;
     Stock.status_estoque := "Em Estoque";
     Stock.descricao_cadastro := Some "  PARAFUSO ";
     Stock.quantidade_estoque := Some (inject_Z 100);
     Stock.grupo := Some "Fixadores";
     Stock.codigo_fab := Some "PF-01";
     Stock.dias_estoque := Some (200 # 50) |}.

End Spec.

(* ------------------------------------------------------------------ *)
(** ** The connection provider and the widgets around the queries *)

Module Provider.

(** [get_databricks_connection]: [sql.connect(...)] hands out a session or
    raises; a failure is reported and becomes [None]. *)
Definition get_databricks_connection (connect : Py.outcome connection)
  : Py.outcome (option connection) :=
  Py.try_except
    (c <- connect ;; Py.Ok (Some c))
    (fun e => _ <- Py.st_error "Erro ao conectar" ;; Py.Ok None).

End Provider.

Module Widgets.

(** The arguments of [st.slider]: [min_value=2],
    [max_value=min(total_produtos, 50)], [value=min(10, total_produtos)]. *)
Definition slider_min : Z := 2.
Definition slider_max (total_produtos : Z) : Z := Z.min total_produtos 50.
Definition slider_value (total_produtos : Z) : Z := Z.min 10 total_produtos.

(** The arguments of [st.number_input]: [min_value=2],
    [max_value=min(total_produtos, 100)], [value=top_n_slider]. *)
Definition input_min : Z := 2.
Definition input_max (total_produtos : Z) : Z := Z.min total_produtos 100.

(** A widget accepts its arguments, and returns values, within its bounds. *)
Definition within (lo hi x : Z) : Prop := (lo <= x <= hi)%Z.

End Widgets.

Module RankingMetrics.

Import Ranking.
Local Open Scope string_scope.

(** [.astype(str)] on the product column. *)
Definition astype_str (x : option string) : string :=
  match x with
  | Some p => p
  | None => "None"
  end.

(** [produtos_top_clean.iloc[0]['produto'] if not produtos_top_clean.empty
     else "N/A"] *)
Definition primeiro_produto (produtos_top_clean : list row) : string :=
  match produtos_top_clean with
  | r :: _ => astype_str (produto r)
  | [] => "N/A"
  end.

(** [len(produtos_top_clean)] *)
Definition total_de_produtos (produtos_top_clean : list row) : Z :=
  Z.of_nat (List.length produtos_top_clean).

End RankingMetrics.

Module StockTab.

Import Stock.
Local Open Scope string_scope.

(** [estoque_df[estoque_df['status_estoque'] == label]] *)
Definition with_status (label : string) (estoque_df : list row) : list row :=
  filter (fun r => String.eqb (status_estoque r) label) estoque_df.

Definition sem_estoque (estoque_df : list row) : nat :=
  List.length (with_status "Sem Estoque" estoque_df).

Definition com_estoque (estoque_df : list row) : nat :=
  List.length (with_status "Em Estoque" estoque_df).

(** [sem_estoque / len(estoque_df) * 100] *)
Definition taxa_de_ruptura (estoque_df : list row) : Q :=
  (inject_Z (Z.of_nat (sem_estoque estoque_df))
   / inject_Z (Z.of_nat (List.length estoque_df)) * 100)%Q.

(** [estoque_df[...== 'Sem Estoque']['produto'].tolist()]; the panel shows
    [produtos_criticos[:5]]. *)
Definition produtos_criticos (estoque_df : list row) : list string :=
  map produto (with_status "Sem Estoque" estoque_df).

Definition criticos_exibidos (estoque_df : list row) : list string :=
  firstn 5 (produtos_criticos estoque_df).

(** [dias_estoque < 7] on a column where NULL is NaN: never true of NaN. *)
Definition lt7 (x : option Q) : bool :=
  match x with
  | Some d => Sql.Qlt_bool d 7
  | None => false
  end.

(** [estoque_df[(status == 'Em Estoque') & (dias_estoque < 7)
                & dias_estoque.notna()]] *)
Definition estoque_baixo (estoque_df : list row) : list row :=
  filter (fun r => String.eqb (status_estoque r) "Em Estoque"
                   && lt7 (dias_estoque r)
                   && Sql.is_not_null (dias_estoque r))
         estoque_df.

End StockTab.

Module Vocabulary.

Local Open Scope string_scope.

(** [n] space characters. *)
Fixpoint spaces (n : nat) : string :=
  match n with
  | O => EmptyString
  | S k => String " " (spaces k)
  end.

(** The characters of a string that are not the given one. *)
Fixpoint without (sep : ascii) (s : string) : string :=
  match s with
  | EmptyString => EmptyString
  | String c s' =>
      if Ascii.eqb c sep then without sep s' else String c (without sep s')
  end.

Fixpoint occurs (c : ascii) (s : string) : bool :=
  match s with
  | EmptyString => false
  | String d s' => Ascii.eqb d c || occurs c s'
  end.

(** The value of a decimal digit character. *)
Definition digit_value (c : ascii) : option Z :=
  let n := nat_of_ascii c in
  if ((48 <=? n) && (n <=? 57))%nat then Some (Z.of_nat (n - 48)) else None.

(** The number a reader gets from the decimal digits of a string, taken
    in order, with every other character skipped. *)
Fixpoint read_digits (acc : Z) (s : string) : Z :=
  match s with
  | EmptyString => acc
  | String c s' =>
      match digit_value c with
      | Some d => read_digits (10 * acc + d) s'
      | None => read_digits acc s'
      end
  end.

(** The cents a formatted value shows: "R$ 1.234,50" shows 123450. *)
Definition printed_cents (s : string) : Z := read_digits 0 s.

(** The product and month a seasonality row stands for. *)
Definition cell (r : Seasonality.row) : string * string :=
  (Seasonality.produto r, Seasonality.mes r).

(** How many catalog rows the stock join pairs with a summary row; a
    summary row without a match still yields one row. *)
Definition fan_out {rt : runtime} (ps : list produtos) (v : Stock.resumo)
  : nat :=
  Nat.max 1 (List.length (filter (Stock.matches v) ps)).

(** A sale line without a sale id among dated-less lines of one product. *)
Definition anonymous : tables :=
  {| itens_venda_mm :=
       [ Spec.undated_sale 4;
         {| descricaoProduto := Some "Prego";
            qtde := Some (inject_Z 2);
            valor := None;
            vendaId := None;
            un := None;
            data := None |};
         Spec.undated_other 6 ];
     produtos_mm := [] |}.

Definition arruela_march : Seasonality.row :=
  {| Seasonality.produto := "Arruela";
     Seasonality.mes := "2024-03";
     Seasonality.quantidade := Some (inject_Z 30) |}.

Definition total_desc (a b : Stock.row) : Prop :=
  Sql.desc (Stock.total_vendido a) (Stock.total_vendido b) = true.

End Vocabulary.

(* ================================================================== *)
(** * Properties *)

(** ** Relational operators *)

Module SqlFacts.

Section Ordering.
Variable A : Type.
Variable le : A -> A -> bool.

Lemma insert_sorted_perm (x : A) (l : list A) :
  Permutation (Sql.insert_sorted le x l) (x :: l).
Proof.
  induction l as [|y l IH]; simpl.
  - apply Permutation_refl.
  - destruct (le x y).
    + apply Permutation_refl.
    + apply perm_trans with (y :: x :: l).
      * now apply perm_skip.
      * apply perm_swap.
Qed.

Lemma order_by_perm (l : list A) : Permutation (Sql.order_by le l) l.
Proof.
  induction l as [|x l IH]; simpl.
  - apply perm_nil.
  - apply perm_trans with (x :: Sql.order_by le l).
    + apply insert_sorted_perm.
    + now apply perm_skip.
Qed.

Lemma order_by_In (l : list A) (x : A) :
  In x (Sql.order_by le l) <-> In x l.
Proof.
  split; apply Permutation_in;
    [ | apply Permutation_sym ]; apply order_by_perm.
Qed.

Hypothesis le_total : forall x y, le x y = false -> le y x = true.

Lemma insert_sorted_sorted (x : A) (l : list A) :
  Sorted (fun a b => le a b = true) l ->
  Sorted (fun a b => le a b = true) (Sql.insert_sorted le x l).
Proof.
  induction l as [|y l IH]; simpl; intros Hs.
  - repeat constructor.
  - destruct (le x y) eqn:Hxy.
    + constructor; [exact Hs | constructor; exact Hxy].
    + inversion Hs as [|? ? Hl Hhd]; subst.
      constructor; [now apply IH |].
      destruct l as [|z l]; simpl.
      * constructor. now apply le_total.
      * destruct (le x z); constructor.
        -- now apply le_total.
        -- now inversion Hhd.
Qed.

Lemma order_by_sorted (l : list A) :
  Sorted (fun a b => le a b = true) (Sql.order_by le l).
Proof.
  induction l as [|x l IH]; simpl.
  - constructor.
  - now apply insert_sorted_sorted.
Qed.

Hypothesis le_trans :
  forall x y z, le x y = true -> le y z = true -> le x z = true.

Lemma order_by_strongly_sorted (l : list A) :
  StronglySorted (fun a b => le a b = true) (Sql.order_by le l).
Proof.
  apply Sorted_StronglySorted.
  - intros x y z. apply le_trans.
  - apply order_by_sorted.
Qed.
End Ordering.

Section Sublists.
Variable A : Type.
Variable R : A -> A -> Prop.

Lemma firstn_In (n : nat) (l : list A) (x : A) :
  In x (firstn n l) -> In x l.
Proof.
  revert l; induction n as [|n IH]; intros [|y l]; simpl;
    try contradiction.
  intros [-> | H]; auto.
Qed.

Lemma strongly_sorted_firstn (n : nat) (l : list A) :
  StronglySorted R l -> StronglySorted R (firstn n l).
Proof.
  revert l; induction n as [|n IH]; intros [|x l] Hs; simpl;
    try constructor.
  - apply IH. now inversion Hs.
  - inversion Hs as [|? ? _ Hall]; subst.
    rewrite Forall_forall in *. intros y Hy. apply Hall.
    revert Hy. apply firstn_In.
Qed.

Lemma strongly_sorted_filter (f : A -> bool) (l : list A) :
  StronglySorted R l -> StronglySorted R (filter f l).
Proof.
  induction 1 as [|x l Hs IH Hall]; simpl.
  - constructor.
  - destruct (f x); [constructor |]; try exact IH.
    rewrite Forall_forall in *. intros y Hy.
    apply Hall. now apply filter_In in Hy.
Qed.

Lemma NoDup_firstn (n : nat) (l : list A) :
  NoDup l -> NoDup (firstn n l).
Proof.
  revert l; induction n as [|n IH]; intros [|x l] Hn; simpl;
    try constructor.
  - intros Hx. inversion Hn; subst.
    apply firstn_In in Hx. contradiction.
  - apply IH. now inversion Hn.
Qed.
End Sublists.

Section Grouping.
Variables (A K : Type).
Variable eq_dec : forall x y : K, {x = y} + {x <> y}.
Variable key : A -> K.

Lemma group_by_keys (rows : list A) :
  map fst (Sql.group_by eq_dec key rows) = nodup eq_dec (map key rows).
Proof.
  unfold Sql.group_by. rewrite map_map. simpl. apply map_id.
Qed.

Lemma group_by_NoDup (rows : list A) :
  NoDup (map fst (Sql.group_by eq_dec key rows)).
Proof. rewrite group_by_keys. apply NoDup_nodup. Qed.

(** A group is never empty, and its rows are the table's rows of that
    key. *)
Lemma group_by_In (rows : list A) (g : K * list A) :
  In g (Sql.group_by eq_dec key rows) ->
  snd g = filter (Sql.has_key eq_dec key (fst g)) rows
  /\ exists r, In r rows /\ key r = fst g.
Proof.
  unfold Sql.group_by. rewrite in_map_iff.
  intros (k & <- & Hk). simpl. split; [reflexivity |].
  apply nodup_In in Hk. apply in_map_iff in Hk.
  destruct Hk as (r & Hr & Hin). now exists r.
Qed.

Lemma group_member (rows : list A) (g : K * list A) (r : A) :
  In g (Sql.group_by eq_dec key rows) ->
  In r (snd g) <-> In r rows /\ key r = fst g.
Proof.
  intros Hg. destruct (group_by_In _ _ Hg) as [-> _].
  rewrite filter_In. unfold Sql.has_key.
  destruct (eq_dec (key r) (fst g)); intuition congruence.
Qed.

Lemma group_nonempty (rows : list A) (g : K * list A) :
  In g (Sql.group_by eq_dec key rows) -> snd g <> [].
Proof.
  intros Hg. destruct (group_by_In _ _ Hg) as (_ & r & Hr & Hk).
  assert (In r (snd g)) by (apply (group_member _ _ r Hg); auto).
  destruct (snd g); [contradiction | discriminate].
Qed.
End Grouping.

End SqlFacts.

(** ** The stock view *)

Module StockFacts.

Import Stock Spec.
Local Open Scope string_scope.

Section AnyRuntime.
Context {rt : runtime}.

Lemma analyze_stock_rows (c : option connection) (top_n : Z)
    (rows : list row) :
  analyze_stock c top_n = Py.Ok rows ->
  rows = query top_n (tables_of c) \/ rows = [].
Proof.
  destruct c as [[w | e] |]; simpl; intros H; injection H as <-; auto.
Qed.

Lemma matches_iff (v : resumo) (p : produtos) :
  matches v p = true <-> name_match (v_descricaoProduto v) p.
Proof.
  unfold matches, name_match. destruct (descricao p) as [d |]; simpl.
  - rewrite String.eqb_eq. split.
    + intros H. exists d. split; congruence.
    + intros (d' & Hd & H). congruence.
  - split; [discriminate | intros (d & Hd & _); discriminate].
Qed.

(** Every row of the answer is the SELECT list over one summary row and
    either a catalog row that matches it or, when none does, the NULL
    padding. *)
Lemma stock_query_In (top_n : Z) (w : tables) (r : row) :
  In r (query top_n w) ->
  exists v, In v (vendas_com_media_dia top_n w) /\
    ((r = select v None /\
      forall p, In p (produtos_mm w) -> matches v p = false)
     \/ exists p, In p (produtos_mm w) /\ matches v p = true /\
                  r = select v (Some p)).
Proof.
  unfold query. rewrite SqlFacts.order_by_In. unfold left_join.
  rewrite in_flat_map. intros (v & Hv & Hr). exists v. split; [exact Hv |].
  destruct (filter (matches v) (produtos_mm w)) as [|p0 found] eqn:Hf.
  - left. destruct Hr as [<- | []]. split; [reflexivity |].
    intros p Hp. destruct (matches v p) eqn:Hm; [| reflexivity].
    assert (In p (filter (matches v) (produtos_mm w)))
      by (apply filter_In; auto).
    rewrite Hf in H. contradiction.
  - right. apply in_map_iff in Hr. destruct Hr as (p & <- & Hp).
    rewrite <- Hf in Hp. apply filter_In in Hp. exists p. tauto.
Qed.

Lemma summary_In (top_n : Z) (c : option connection) (v : resumo) :
  In v (vendas_com_media_dia top_n (tables_of c)) ->
  exists g, In g (stock_groups c) /\ v = summarize g.
Proof.
  unfold vendas_com_media_dia, Sql.LIMIT. intros H.
  apply SqlFacts.firstn_In in H. apply SqlFacts.order_by_In in H.
  apply in_map_iff in H. destruct H as (g & <- & Hg). now exists g.
Qed.

(** Only dated sale lines are aggregated, so a product always has at
    least one sale day. *)
Lemma dias_positive (c : option connection) (g : string * list itens_venda) :
  In g (stock_groups c) -> (0 < dias (snd g))%Z.
Proof.
  intros Hg. unfold stock_groups in Hg.
  destruct (SqlFacts.group_by_In _ _ _ _ Hg) as (_ & r & Hr & Hk).
  assert (Hin : In r (snd g))
    by (apply (SqlFacts.group_member _ _ _ _ r Hg); auto).
  apply filter_In in Hr. destruct Hr as [_ Hd].
  unfold dated in Hd. apply andb_true_iff in Hd. destruct Hd as [_ Hd].
  destruct (data r) as [t |] eqn:Ht; [| discriminate].
  unfold dias, Sql.COUNT_DISTINCT.
  assert (Hnn : In (DATE t)
            (Sql.non_null (map (fun r => option_map DATE (data r)) (snd g)))).
  { clear - Hin Ht. induction (snd g) as [|x l IH]; [contradiction |].
    simpl. destruct Hin as [-> | Hin].
    - rewrite Ht. simpl. auto.
    - destruct (option_map DATE (data x)); simpl; auto. }
  apply (nodup_In date_eq_dec) in Hnn.
  destruct (nodup date_eq_dec _); [contradiction | simpl; lia].
Qed.

Lemma gt0_iff (a : Q) : Sql.gt0 (Some a) = true <-> (0 < a)%Q.
Proof.
  unfold Sql.gt0, Sql.Qlt_bool. rewrite negb_true_iff.
  split.
  - intros H. apply Qnot_le_lt. intros Hle.
    apply Qle_bool_iff in Hle. congruence.
  - intros H. destruct (Qle_bool a 0) eqn:E; [| reflexivity].
    apply Qle_bool_iff in E. exfalso. exact (Qlt_not_le _ _ H E).
Qed.

Lemma div_positive (s a : Q) :
  (0 < a)%Q -> Sql.div (Some s) (Some a) = Some (s / a)%Q.
Proof.
  intros H. unfold Sql.div.
  destruct (Qeq_bool a 0) eqn:E; [| reflexivity].
  apply Qeq_bool_eq in E. rewrite E in H.
  exfalso. exact (Qlt_irrefl _ H).
Qed.



(** C3.  On every row of [analyze_stock], [dias_estoque] is NULL when the
    per-day average is at most zero or the stock quantity is NULL; in
    every other case it is the quotient of the stock quantity by the
    per-day average. *)
Theorem dias_estoque_is_quotient
    (c : option connection) (top_n : Z) (rows : list row) (r : row) :
  analyze_stock c top_n = Py.Ok rows ->
  In r rows ->
  ((exists a, media_venda_dia r = Some a /\ (a <= 0)%Q)
     \/ quantidade_estoque r = None ->
   dias_estoque r = None)
  /\ (forall s a,
        quantidade_estoque r = Some s -> media_venda_dia r = Some a ->
        (0 < a)%Q -> dias_estoque r = Some (s / a)%Q)
  /\ (~ ((exists a, media_venda_dia r = Some a /\ (a <= 0)%Q)
         \/ quantidade_estoque r = None) ->
      dias_estoque r = Sql.div (quantidade_estoque r) (media_venda_dia r)).
Proof.
  intros Hrun Hr.
  destruct (analyze_stock_rows _ _ Hrun) as [-> | ->]; [| contradiction].
  destruct (stock_query_In _ _ _ Hr) as (v & _ & [[-> _] | (p & _ & _ & ->)]);
    simpl.
  - split; [reflexivity | split]; [discriminate |].
    intros H. exfalso. apply H. now right.
  - destruct (estoque p) as [s |]; simpl.
    + destruct (v_media_venda_dia v) as [a |] eqn:Ha.
      * destruct (Sql.gt0 (Some a)) eqn:Hg.
        -- apply gt0_iff in Hg. split; [| split].
           ++ intros [(a' & Ea & Hle) | E]; [| discriminate].
              injection Ea as <-. exfalso. exact (Qlt_not_le _ _ Hg Hle).
           ++ intros s' a' Es Ea _. injection Es as <-. injection Ea as <-.
              now apply div_positive.
           ++ intros _. reflexivity.
        -- assert (Hle : (a <= 0)%Q).
           { apply Qnot_lt_le. intros Hlt. apply gt0_iff in Hlt. congruence. }
           split; [reflexivity | split].
           ++ intros s' a' _ Ea Hpos. injection Ea as <-.
              exfalso. exact (Qlt_not_le _ _ Hpos Hle).
           ++ intros H. exfalso. apply H. left. now exists a.
      * split; [reflexivity | split]; [discriminate | reflexivity].
    + split; [reflexivity | split]; [discriminate |].
      intros H. exfalso. apply H. now right.
Qed.

Lemma div_by_days (total : option Q) (d : Z) :
  d <> 0%Z ->
  Sql.div total (Some (inject_Z d))
  = option_map (fun t => t / inject_Z d)%Q total.
Proof.
  intros Hd. destruct total as [t |]; [| reflexivity]. simpl.
  destruct (Qeq_bool (inject_Z d) 0) eqn:E; [| reflexivity].
  apply Qeq_bool_eq in E. unfold Qeq in E. simpl in E. lia.
Qed.

Lemma keep_twice {A} (f g : A -> bool) (l : list A) :
  filter f (filter g l) = filter (fun x => g x && f x) l.
Proof.
  induction l as [|x l IH]; simpl; [reflexivity |].
  destruct (g x); simpl; [| exact IH]. destruct (f x); now rewrite IH.
Qed.

(** A group of the stock summary is the product's dated sale lines. *)
Lemma group_is_dated_lines (c : option connection)
    (g : string * list itens_venda) :
  In g (stock_groups c) ->
  snd g = dated_lines_of (tables_of c) (fst g).
Proof.
  intros Hg. unfold stock_groups in Hg.
  destruct (SqlFacts.group_by_In _ _ _ _ Hg) as [-> _].
  rewrite keep_twice. unfold dated_lines_of. apply filter_ext.
  intros x. unfold dated, Sql.has_key, Seasonality.name.
  destruct (descricaoProduto x) as [d |]; simpl; [| reflexivity].
  destruct (data x); simpl.
  - destruct (string_dec d (fst g)) as [-> | Hne].
    + now rewrite String.eqb_refl.
    + symmetry. now apply String.eqb_neq.
  - reflexivity.
Qed.

Lemma In_non_null {A} (l : list (option A)) (a : A) :
  In a (Sql.non_null l) <-> In (Some a) l.
Proof.
  induction l as [|[b |] l IH]; simpl.
  - tauto.
  - rewrite IH. split; intros [E | H]; auto; left; congruence.
  - rewrite IH. split; [auto |]. intros [E | H]; [discriminate | exact H].
Qed.

(** The count the summary divides by is the number of distinct days on
    which the lines were sold. *)
Lemma dias_counts_days (lines : list itens_venda) :
  distinct_sale_days lines (dias lines).
Proof.
  unfold distinct_sale_days, dias, Sql.COUNT_DISTINCT.
  eexists. split; [apply NoDup_nodup |]. split; [| reflexivity].
  intros day. rewrite nodup_In, In_non_null, in_map_iff. split.
  - intros (x & E & Hx). destruct (data x) as [t |] eqn:Et;
      [| discriminate].
    simpl in E. injection E as <-. now exists x, t.
  - intros (x & t & Hx & Et & <-). exists x. now rewrite Et.
Qed.

(** C4, amended.  Every record of [analyze_stock] stands for a product
    with at least one dated sale line; its total is the sum over those
    lines and its per-day average is that total divided by the number of
    distinct days on which they were sold, which is at least one.  A
    product without a dated sale line gets no record, so the division by
    30 is never reached. *)
Theorem media_venda_dia_over_sale_days
    (c : option connection) (top_n : Z) (rows : list row) :
  analyze_stock c top_n = Py.Ok rows ->
  (forall r, In r rows ->
     dated_lines_of (tables_of c) (produto r) <> []
     /\ total_vendido r
        = Sql.SUM (map qtde (dated_lines_of (tables_of c) (produto r)))
     /\ exists d,
          distinct_sale_days (dated_lines_of (tables_of c) (produto r)) d
          /\ (1 <= d)%Z
          /\ media_venda_dia r
             = option_map (fun t => t / inject_Z d)%Q (total_vendido r))
  /\ (forall product,
        dated_lines_of (tables_of c) product = [] ->
        forall r, In r rows -> produto r <> product).
Proof.
  intros Hrun.
  assert (Hrow : forall r, In r rows ->
     dated_lines_of (tables_of c) (produto r) <> []
     /\ total_vendido r
        = Sql.SUM (map qtde (dated_lines_of (tables_of c) (produto r)))
     /\ exists d,
          distinct_sale_days (dated_lines_of (tables_of c) (produto r)) d
          /\ (1 <= d)%Z
          /\ media_venda_dia r
             = option_map (fun t => t / inject_Z d)%Q (total_vendido r)).
  { intros r Hr.
    destruct (analyze_stock_rows _ _ Hrun) as [-> | ->]; [| contradiction].
    destruct (stock_query_In _ _ _ Hr) as (v & Hv & Hsel).
    destruct (summary_In _ _ _ Hv) as (g & Hg & ->).
    assert (E : produto r = fst g
                /\ total_vendido r = Sql.SUM (map qtde (snd g))
                /\ media_venda_dia r
                   = media_dia (Sql.SUM (map qtde (snd g))) (dias (snd g))).
    { destruct Hsel as [[-> _] | (p & _ & _ & ->)]; simpl; auto. }
    destruct E as (Ep & Et & Em).
    pose proof (dias_positive _ _ Hg) as Hpos.
    rewrite Ep, <- (group_is_dated_lines _ _ Hg).
    split; [exact (SqlFacts.group_nonempty _ _ _ _ Hg) |].
    split; [exact Et |].
    exists (dias (snd g)). split; [apply dias_counts_days |].
    split; [lia |].
    rewrite Em, Et. unfold media_dia.
    assert (Hb : (0 <? dias (snd g))%Z = true) by (apply Z.ltb_lt; lia).
    rewrite Hb. apply div_by_days. lia. }
  split; [exact Hrow |].
  intros product Hnone r Hr E. destruct (Hrow r Hr) as [Hne _].
  rewrite E in Hne. contradiction.
Qed.

End AnyRuntime.

Section OnTheLab.
#[local] Existing Instance lab.


Lemma dias_estoque_is_quotient_witness :
  dias_estoque demo_parafuso = Some (inject_Z 100 / (50 # 2))%Q.
Proof.
  refine (proj1 (proj2 (dias_estoque_is_quotient demo_connection 3
                          (rows := query 3 demo) demo_parafuso _ _))
            (inject_Z 100) (50 # 2) _ _ _).
  - reflexivity.
  - vm_compute. left. reflexivity.
  - reflexivity.
  - reflexivity.
  - reflexivity.
Defined.

(** C4 as stated fails: a product whose 90 units were all sold without a
    date has no sale day, yet [analyze_stock] gives it no record at all,
    and so no per-day average of 3. *)
Lemma undated_product_gets_no_record :
  ~ (forall (w : tables) (top_n : Z) (product : string) (rows : list row),
        analyze_stock (Some (Serving w)) top_n = Py.Ok rows ->
        (Z.of_nat (List.length (itens_venda_mm w)) <= top_n)%Z ->
        Sql.SUM (map qtde (lines_of w product)) = Some (inject_Z 90) ->
        distinct_sale_days (lines_of w product) 0 ->
        exists r q,
          In r rows /\ produto r = product
          /\ media_venda_dia r = Some q /\ (q == 3)%Q).
Proof.
  intros H.
  destruct (H never_dated 2%Z "Prego" (query 2 never_dated))
    as (r & q & Hr & Hp & _).
  - reflexivity.
  - simpl. lia.
  - reflexivity.
  - exists []. split; [constructor |]. split; [| reflexivity].
    intros day. split; [contradiction |].
    intros (x & t & [<- | []] & Ht & _). discriminate Ht.
  - vm_compute in Hr. destruct Hr as [<- | []]. discriminate Hp.
Qed.

Lemma media_venda_dia_over_sale_days_witness :
  (forall r, In r (query 3 demo) ->
     dated_lines_of (tables_of demo_connection) (produto r) <> []
     /\ total_vendido r
        = Sql.SUM (map qtde
                     (dated_lines_of (tables_of demo_connection) (produto r)))
     /\ exists d,
          distinct_sale_days
            (dated_lines_of (tables_of demo_connection) (produto r)) d
          /\ (1 <= d)%Z
          /\ media_venda_dia r
             = option_map (fun t => t / inject_Z d)%Q (total_vendido r))
  /\ (forall product,
        dated_lines_of (tables_of demo_connection) product = [] ->
        forall r, In r (query 3 demo) -> produto r <> product).
Proof.
  apply (media_venda_dia_over_sale_days demo_connection 3). reflexivity.
Defined.

End OnTheLab.

End StockFacts.

(** ** The product count and the top-N controls *)

Module TotalFacts.

Import Total.

(** C7.  [get_total_products] answers 10 when there is no connection and
    when the query raises, and on every connection it returns a number:
    no exception leaves it. *)
Theorem get_total_products_fallback :
  get_total_products None = Py.Ok 10%Z
  /\ (forall e, get_total_products (Some (Failing e)) = Py.Ok 10%Z)
  /\ (forall c, exists n, get_total_products c = Py.Ok n).
Proof.
  split; [reflexivity | split].
  - intros e. reflexivity.
  - intros [[w | e] |]; simpl; eauto.
Qed.

End TotalFacts.

Module ControlsFacts.

(** C10.  The arbitration between the two controls always yields the
    value of the number input, whatever the slider shows. *)
Theorem top_n_is_top_n_input (top_n_input top_n_slider : Z) :
  Controls.top_n top_n_input top_n_slider = top_n_input.
Proof.
  unfold Controls.top_n.
  destruct (Z.eqb_spec top_n_input top_n_slider) as [-> | Hne];
    reflexivity.
Qed.

End ControlsFacts.

(** ** Trimming *)

Module TrimFacts.

Import Sql.

Import Spec.

Lemma ltrim_starts_clean (s : string) : starts_clean (ltrim s).
Proof.
  induction s as [|c s IH]; simpl; [exact I |].
  destruct (is_space c) eqn:E; [exact IH | exact E].
Qed.

Lemma ltrim_fixed (s : string) : starts_clean s -> ltrim s = s.
Proof.
  destruct s as [|c s]; simpl; [reflexivity |]. now intros ->.
Qed.

Lemma rtrim_starts_clean (s : string) :
  starts_clean s -> starts_clean (rtrim s).
Proof.
  destruct s as [|c s]; simpl; [auto |]. intros E.
  destruct (rtrim s); simpl; [rewrite E |]; exact E.
Qed.

Lemma rtrim_idempotent (s : string) : rtrim (rtrim s) = rtrim s.
Proof.
  induction s as [|c s IH]; simpl; [reflexivity |].
  destruct (rtrim s) as [|d r] eqn:E.
  - destruct (is_space c) eqn:Ec; simpl; [reflexivity |].
    now rewrite Ec.
  - change (rtrim (String c (String d r))) with
      (match rtrim (String d r) with
       | EmptyString =>
           if is_space c then EmptyString else String c EmptyString
       | r' => String c r'
       end).
    now rewrite IH.
Qed.

Lemma TRIM_idempotent (s : string) : TRIM (TRIM s) = TRIM s.
Proof.
  unfold TRIM.
  rewrite (ltrim_fixed (rtrim (ltrim s))).
  - apply rtrim_idempotent.
  - apply rtrim_starts_clean, ltrim_starts_clean.
Qed.

End TrimFacts.

(** ** The ranking view *)

Module RankingFacts.

Import Ranking Spec.
Local Open Scope Q_scope.

Lemma desc_total (a b : option Q) :
  Sql.desc a b = false -> Sql.desc b a = true.
Proof.
  destruct a as [x |], b as [y |]; simpl; try congruence.
  intros H. apply Qle_bool_iff. apply Qlt_le_weak, Qnot_le_lt.
  intros Hle. apply Qle_bool_iff in Hle. congruence.
Qed.

Lemma desc_trans (a b c : option Q) :
  Sql.desc a b = true -> Sql.desc b c = true -> Sql.desc a c = true.
Proof.
  destruct a as [x |], b as [y |], c as [z |]; simpl; try congruence.
  rewrite !Qle_bool_iff. intros H1 H2. now apply Qle_trans with y.
Qed.

Lemma total_positive (l : list Q) :
  l <> [] -> Forall (fun q => 0 < q) l -> 0 < Sql.total l.
Proof.
  induction l as [|x l IH]; [congruence |]. intros _ Hall.
  inversion Hall as [|? ? Hx Hl]; subst. simpl.
  destruct l as [|y l].
  - simpl. now rewrite Qplus_0_r.
  - assert (0 < Sql.total (y :: l)) by (apply IH; [discriminate | exact Hl]).
    rewrite <- (Qplus_0_r 0). apply Qplus_lt_le_compat.
    + exact Hx.
    + now apply Qlt_le_weak.
Qed.

(** A sum over at least one row, all of them positive, is a positive
    number and not NULL. *)
Lemma SUM_positive (l : list (option Q)) :
  l <> [] ->
  Forall (fun x => exists q, x = Some q /\ 0 < q) l ->
  exists s, Sql.SUM l = Some s /\ 0 < s.
Proof.
  intros Hne Hall.
  assert (Hnn : Sql.non_null l <> []
                /\ Forall (fun q => 0 < q) (Sql.non_null l)).
  { split.
    - destruct Hall as [|x l' (q & -> & _) _]; [congruence | discriminate].
    - clear Hne. induction Hall as [|x l' (q & -> & Hq) _ IH]; simpl.
      + constructor.
      + constructor; [exact Hq | exact IH]. }
  revert Hnn. unfold Sql.SUM.
  destruct (Sql.non_null l) as [|v vs] eqn:E; intros [Hn Hp].
  - congruence.
  - exists (Sql.total (v :: vs)). split; [reflexivity |].
    apply total_positive; [discriminate | exact Hp].
Qed.

Lemma coerce_id (r : row) : coerce r = r.
Proof. now destruct r. Qed.

Lemma map_coerce (df : list row) : map coerce df = df.
Proof.
  induction df as [|r df IH]; simpl; [reflexivity |].
  now rewrite coerce_id, IH.
Qed.

(** What the function returns on any connection: the query's rows that
    have a product and a quantity. *)
Lemma get_top_products_rows (c : option connection) (limit : Z)
    (rows : list row) :
  get_top_products c limit = Py.Ok rows ->
  rows = dropna (query limit (tables_of c)).
Proof.
  destruct c as [[w | e] |]; simpl.
  - destruct (query limit w) as [|r df] eqn:E; intros H; injection H as <-.
    + reflexivity.
    + now rewrite <- (map_coerce (r :: df)).
  - intros H; injection H as <-. unfold query, Sql.LIMIT. simpl.
    now rewrite firstn_nil.
  - intros H; injection H as <-. unfold query, Sql.LIMIT. simpl.
    now rewrite firstn_nil.
Qed.

Lemma get_top_products_total (c : option connection) (limit : Z) :
  exists rows, get_top_products c limit = Py.Ok rows.
Proof.
  destruct c as [[w | e] |]; simpl.
  - destruct (query limit w); eexists; reflexivity.
  - eexists; reflexivity.
  - eexists; reflexivity.
Qed.

Lemma qualifies_spec (x : itens_venda) :
  Total.qualifies x = true ->
  exists d q, descricaoProduto x = Some d /\ qtde x = Some q /\ 0 < q.
Proof.
  unfold Total.qualifies.
  destruct (descricaoProduto x) as [d |]; [| discriminate].
  rewrite andb_true_iff. intros [_ Hq].
  destruct (qtde x) as [q |]; [| discriminate].
  exists d, q. repeat split. revert Hq. unfold Sql.gt0, Sql.Qlt_bool.
  rewrite negb_true_iff. intros H. apply Qnot_le_lt.
  intros Hle. apply Qle_bool_iff in Hle. congruence.
Qed.

Lemma ranking_query_In (limit : Z) (w : tables) (r : row) :
  In r (query limit w) ->
  exists g,
    In g (Sql.group_by string_dec key
            (filter Total.qualifies (itens_venda_mm w)))
    /\ r = aggregate g.
Proof.
  unfold query, Sql.LIMIT. intros H.
  apply SqlFacts.firstn_In in H. apply SqlFacts.order_by_In in H.
  apply in_map_iff in H. destruct H as (g & <- & Hg). now exists g.
Qed.

(** C9.  Every row returned by [get_top_products] has a total quantity
    that is a number greater than zero: only sale lines with a positive
    quantity enter the sums. *)
Theorem quantidade_total_positive
    (c : option connection) (limit : Z) (rows : list row) (r : row) :
  get_top_products c limit = Py.Ok rows ->
  In r rows ->
  exists q, quantidade_total r = Some q /\ 0 < q.
Proof.
  intros Hrun Hr. rewrite (get_top_products_rows _ _ Hrun) in Hr.
  apply filter_In in Hr. destruct Hr as [Hr _].
  destruct (ranking_query_In _ _ _ Hr) as (g & Hg & ->). simpl.
  apply SUM_positive.
  - intros E. apply map_eq_nil in E. revert E.
    exact (SqlFacts.group_nonempty _ _ _ _ Hg).
  - apply Forall_forall. intros x Hx. apply in_map_iff in Hx.
    destruct Hx as (s & <- & Hs).
    apply (SqlFacts.group_member _ _ _ _ s Hg) in Hs.
    destruct Hs as [Hs _]. apply filter_In in Hs. destruct Hs as [_ Hq].
    destruct (qualifies_spec _ Hq) as (d & q & _ & -> & Hpos). eauto.
Qed.

Lemma quantidade_total_positive_witness :
  exists q, quantidade_total top_parafuso = Some q /\ 0 < q.
Proof.
  apply (quantidade_total_positive demo_connection 2
           (rows := [top_parafuso; top_arruela])).
  - reflexivity.
  - left. reflexivity.
Defined.

Lemma distinct_after_filter {A B} (keep : A -> bool) (col : A -> B)
    (rows : list A) (Hn : NoDup (map col rows)) :
  NoDup (map col (filter keep rows)).
Proof.
  induction rows as [|x rows IH]; simpl in *; [constructor |].
  apply NoDup_cons_iff in Hn. destruct Hn as [Hx Hrest].
  destruct (keep x); simpl; [| now apply IH].
  constructor; [| now apply IH].
  intros Hin. apply Hx. apply in_map_iff in Hin.
  destruct Hin as (y & Ey & Hy). apply filter_In in Hy.
  apply in_map_iff. exists y. tauto.
Qed.

Lemma strongly_sorted_refine {A} (R R' : A -> A -> Prop) (P : A -> Prop)
    (l : list A) :
  (forall a b, P a -> P b -> R a b -> R' a b) ->
  Forall P l -> StronglySorted R l -> StronglySorted R' l.
Proof.
  intros Himp Hall Hs. induction Hs as [|x l Hs IH Hx]; [constructor |].
  inversion Hall as [|? ? Px Pl]; subst.
  constructor; [now apply IH |].
  rewrite Forall_forall in *. intros y Hy. apply Himp; auto.
Qed.

Lemma query_sorted (limit : Z) (w : tables) :
  StronglySorted (fun a b => by_quantidade_desc a b = true)
    (query limit w).
Proof.
  unfold query, Sql.LIMIT. apply SqlFacts.strongly_sorted_firstn.
  apply SqlFacts.order_by_strongly_sorted.
  - intros x y. apply desc_total.
  - intros x y z. apply desc_trans.
Qed.

Lemma query_names_NoDup (limit : Z) (w : tables) :
  NoDup (map produto (query limit w)).
Proof.
  unfold query, Sql.LIMIT. rewrite <- firstn_map.
  apply SqlFacts.NoDup_firstn.
  eapply Permutation_NoDup.
  - apply Permutation_map, Permutation_sym, SqlFacts.order_by_perm.
  - rewrite map_map. simpl.
    rewrite <- (map_map fst Some).
    apply NoDup_map_NoDup_ForallPairs.
    + intros x y _ _ E. now injection E.
    + apply SqlFacts.group_by_NoDup.
Qed.

(** The product names of the answer are already trimmed. *)
Lemma produto_trimmed (limit : Z) (w : tables) (r : row) :
  In r (query limit w) -> option_map Sql.TRIM (produto r) = produto r.
Proof.
  intros Hr. destruct (ranking_query_In _ _ _ Hr) as (g & Hg & ->). simpl.
  destruct (SqlFacts.group_by_In _ _ _ _ Hg) as (_ & x & _ & <-).
  unfold key. destruct (descricaoProduto x); [| reflexivity].
  now rewrite TrimFacts.TRIM_idempotent.
Qed.

(** C2.  For a limit of at least 2, [get_top_products] returns no more
    rows than the limit, in descending order of total quantity, and no
    two rows name the same product, also after trimming the names. *)
Theorem top_products_ranked
    (c : option connection) (limit : Z) (rows : list row) :
  (2 <= limit)%Z ->
  get_top_products c limit = Py.Ok rows ->
  (Z.of_nat (List.length rows) <= limit)%Z
  /\ StronglySorted qty_desc rows
  /\ NoDup (map produto rows)
  /\ NoDup (map (fun r => option_map Sql.TRIM (produto r)) rows).
Proof.
  intros Hlim Hrun. rewrite (get_top_products_rows _ _ Hrun).
  set (w := tables_of c). unfold dropna.
  assert (Hnames : NoDup (map produto (filter has_required (query limit w))))
    by apply distinct_after_filter, query_names_NoDup.
  repeat split.
  - pose proof (filter_length_le has_required (query limit w)) as H1.
    assert (H2 : (List.length (query limit w) <= Z.to_nat limit)%nat)
      by apply firstn_le_length.
    lia.
  - apply strongly_sorted_refine
      with (R := fun a b => by_quantidade_desc a b = true)
           (P := fun r => has_required r = true).
    + intros a b Ha Hb. unfold has_required in Ha, Hb.
      apply andb_true_iff in Ha, Hb. destruct Ha as [_ Ha], Hb as [_ Hb].
      unfold by_quantidade_desc, qty_desc.
      destruct (quantidade_total a), (quantidade_total b);
        try discriminate.
      simpl. apply Qle_bool_iff.
    + apply Forall_forall. intros r Hr. now apply filter_In in Hr.
    + apply SqlFacts.strongly_sorted_filter, query_sorted.
  - exact Hnames.
  - erewrite map_ext_in; [exact Hnames |].
    intros r Hr. apply filter_In in Hr.
    apply (produto_trimmed limit w). tauto.
Qed.

Lemma top_products_ranked_witness :
  (Z.of_nat (List.length [top_parafuso; top_arruela]) <= 2)%Z
  /\ StronglySorted qty_desc [top_parafuso; top_arruela]
  /\ NoDup (map produto [top_parafuso; top_arruela])
  /\ NoDup (map (fun r => option_map Sql.TRIM (produto r))
              [top_parafuso; top_arruela]).
Proof.
  apply (top_products_ranked demo_connection (limit := 2)).
  - lia.
  - reflexivity.
Defined.

(** Three products sold 50, 30 and 20: the top two come back in that
    order and the third is left out. *)
Example top_two_of_three :
  get_top_products demo_connection 2
  = Py.Ok [top_parafuso; top_arruela].
Proof. reflexivity. Qed.

End RankingFacts.

(** ** The rows handed to the ranking chart *)

Module NormalizerFacts.

Import Ranking RankingTab Spec.
Local Open Scope string_scope.

Lemma filter_implied {A} (f g : A -> bool) (l : list A) :
  (forall x, g x = true -> f x = true) ->
  filter f (filter g l) = filter g l.
Proof.
  intros Himp. induction l as [|x l IH]; simpl; [reflexivity |].
  destruct (g x) eqn:E; simpl; [| exact IH].
  now rewrite (Himp x E), IH.
Qed.

Lemma produtos_top_clean_dropna (df : list row) :
  produtos_top_clean (dropna df) = dropna df.
Proof.
  unfold produtos_top_clean, dropna.
  rewrite (filter_implied has_required has_required) by auto.
  rewrite (map_ext _ (fun r => r)) by (now intros []).
  rewrite map_id. apply filter_implied.
  intros x Hx. unfold has_required in Hx.
  now apply andb_true_iff in Hx.
Qed.

(** What reaches the chart, on any connection. *)
Lemma tab1_rows (c : option connection) (top_n : Z)
    (rows : list (row * string)) :
  tab1 c top_n = Py.Ok rows ->
  rows = map (fun r => (r, Currency.valor_total_formatado (valor_total r)))
           (dropna (query top_n (tables_of c))).
Proof.
  unfold tab1.
  destruct (RankingFacts.get_top_products_total c top_n) as (df & Hdf).
  rewrite Hdf. simpl.
  rewrite (RankingFacts.get_top_products_rows _ _ Hdf).
  destruct (dropna (query top_n (tables_of c))) as [|r df'] eqn:E;
    intros H; injection H as <-; [reflexivity |].
  unfold vega_data. rewrite <- E. now rewrite produtos_top_clean_dropna.
Qed.

Lemma tab1_total (c : option connection) (top_n : Z) :
  exists rows, tab1 c top_n = Py.Ok rows.
Proof.
  unfold tab1.
  destruct (RankingFacts.get_top_products_total c top_n) as (df & ->).
  simpl. destruct df; eauto.
Qed.

(** The cleaning steps on any frame: the rows that pass, each with its
    formatted value. *)
Lemma shown_rows (df : list row) :
  shown df
  = map (fun r => (r, Currency.valor_total_formatado (valor_total r)))
      (dropna df).
Proof.
  unfold shown.
  rewrite (map_ext coerce (fun r => r)) by (now intros []).
  rewrite map_id. destruct df as [|r0 df0]; [reflexivity |].
  destruct (dropna (r0 :: df0)) as [|r df'] eqn:E; [reflexivity |].
  unfold vega_data. now rewrite <- E, produtos_top_clean_dropna.
Qed.

(** C8 as stated fails: a product whose sale lines carry no value comes
    back with a NULL total value, and the row stays, next to the row of
    a product that has one. *)
Lemma row_without_valor_total_is_kept :
  ~ (forall c top_n rows r s,
        tab1 c top_n = Py.Ok rows ->
        In (r, s) rows ->
        quantidade_total r <> None /\ valor_total r <> None).
Proof.
  intros H.
  destruct (H (Some (Serving unpriced)) 2%Z
              [(prego, "-"); (arruela_priced, "R$ 6,00")] prego "-")
    as [_ Hv].
  - reflexivity.
  - left. reflexivity.
  - apply Hv. reflexivity.
Qed.

(** C8, amended.  Whatever frame the warehouse returns, the rows handed
    to the chart are, in the same order and with the values they came
    with, the rows that have a product and a quantity: a row without a
    product or without a quantity is dropped, no number is replaced by
    zero, and a row whose total value is NULL is kept and shown as "-".
    The ranking tab shows the rows of its query cleaned this way. *)
Theorem rows_without_quantity_are_dropped (df : list row) :
  map fst (shown df) = filter identified df
  /\ (forall r s, In (r, s) (shown df) ->
        In r df
        /\ (exists p, produto r = Some p)
        /\ (exists q, quantidade_total r = Some q)
        /\ s = Currency.valor_total_formatado (valor_total r)
        /\ (valor_total r = None -> s = "-"))
  /\ (forall r, In r df ->
        produto r = None \/ quantidade_total r = None ->
        forall s, ~ In (r, s) (shown df))
  /\ (forall r, In r df ->
        produto r <> None -> quantidade_total r <> None ->
        valor_total r = None -> In (r, "-") (shown df))
  /\ (forall c top_n,
        tab1 c top_n = Py.Ok (shown (query top_n (tables_of c)))).
Proof.
  assert (Hreq : forall r, has_required r = identified r).
  { intros r. unfold has_required, identified.
    now destruct (produto r), (quantidade_total r). }
  assert (Hfst : map fst (shown df) = filter identified df).
  { rewrite shown_rows, map_map. simpl. rewrite map_id.
    unfold dropna. apply filter_ext. exact Hreq. }
  split; [exact Hfst |]. split; [| split; [| split]].
  - intros r s Hin. rewrite shown_rows in Hin. apply in_map_iff in Hin.
    destruct Hin as (r' & E & Hr). injection E as -> <-.
    apply filter_In in Hr. destruct Hr as [Hr Hok].
    rewrite Hreq in Hok. unfold identified in Hok.
    destruct (produto r) as [p |]; [| discriminate].
    destruct (quantidade_total r) as [q |]; [| discriminate].
    repeat split; eauto. now intros ->.
  - intros r Hr Hnull s Hin.
    assert (Hf : In r (filter identified df)).
    { rewrite <- Hfst. apply in_map_iff. now exists (r, s). }
    apply filter_In in Hf. destruct Hf as [_ Hok].
    unfold identified in Hok.
    destruct Hnull as [E | E]; rewrite E in Hok;
      [| destruct (produto r)]; discriminate.
  - intros r Hr Hp Hq Hv. rewrite shown_rows. apply in_map_iff.
    exists r. rewrite Hv. split; [reflexivity |].
    apply filter_In. split; [exact Hr |]. rewrite Hreq.
    unfold identified.
    destruct (produto r); [| contradiction].
    destruct (quantidade_total r); [reflexivity | contradiction].
  - intros c top_n. destruct (tab1_total c top_n) as (rows & Hrun).
    rewrite Hrun. f_equal. rewrite shown_rows. now apply tab1_rows.
Qed.

Lemma rows_without_quantity_are_dropped_witness :
  map fst (shown ragged_frame) = filter identified ragged_frame
  /\ (forall r s, In (r, s) (shown ragged_frame) ->
        In r ragged_frame
        /\ (exists p, produto r = Some p)
        /\ (exists q, quantidade_total r = Some q)
        /\ s = Currency.valor_total_formatado (valor_total r)
        /\ (valor_total r = None -> s = "-"))
  /\ (forall r, In r ragged_frame ->
        produto r = None \/ quantidade_total r = None ->
        forall s, ~ In (r, s) (shown ragged_frame))
  /\ (forall r, In r ragged_frame ->
        produto r <> None -> quantidade_total r <> None ->
        valor_total r = None -> In (r, "-") (shown ragged_frame))
  /\ (forall c top_n,
        tab1 c top_n = Py.Ok (shown (query top_n (tables_of c)))).
Proof.
  exact (rows_without_quantity_are_dropped ragged_frame).
Defined.

(** Of the three rows of the ragged frame only the one with product and
    quantity reaches the chart, its missing value shown as a dash. *)
Example ragged_frame_shown :
  shown ragged_frame = [(prego, "-")].
Proof. reflexivity. Qed.

(** On the two-product table both rows reach the chart. *)
Example unpriced_shown :
  tab1 (Some (Serving unpriced)) 2
  = Py.Ok [(prego, "-"); (arruela_priced, "R$ 6,00")].
Proof. reflexivity. Qed.

End NormalizerFacts.

(** ** The currency column *)

Module CurrencyFacts.

Import Currency Spec.
Local Open Scope string_scope.

Lemma swap_cons (c : ascii) (s : string) :
  swap (String c s) = String (swap_char c) (swap s).
Proof. reflexivity. Qed.

Lemma swap_app (s t : string) : swap (s ++ t) = swap s ++ swap t.
Proof.
  induction s as [|c s IH]; [reflexivity |].
  simpl append. now rewrite !swap_cons, IH.
Qed.

Lemma swap_of_list (l : list ascii) :
  swap (string_of_list_ascii l) = string_of_list_ascii (map swap_char l).
Proof.
  induction l as [|c l IH]; [reflexivity |].
  simpl string_of_list_ascii. now rewrite swap_cons, IH.
Qed.

Lemma swap_char_digit (c : ascii) : is_digit c = true -> swap_char c = c.
Proof.
  destruct c as [[] [] [] [] [] [] [] []]; intros H;
    try reflexivity; discriminate H.
Qed.

Lemma swap_digits (s : string) : all_digits s -> swap s = s.
Proof.
  unfold all_digits. induction s as [|c s IH]; [reflexivity |].
  simpl. intros H. inversion H as [|? ? Hc Hs]; subst.
  now rewrite swap_cons, (swap_char_digit _ Hc), IH.
Qed.

Lemma digit_is_digit (d : Z) : is_digit (Sql.digit d) = true.
Proof.
  unfold Sql.digit.
  assert (H : (Z.to_nat (d mod 10) < 10)%nat)
    by (pose proof (Z.mod_pos_bound d 10); lia).
  destruct (Z.to_nat (d mod 10)) as [|k]; [reflexivity |].
  do 9 (destruct k as [|k]; [reflexivity |]). lia.
Qed.

Lemma all_digits_app (s t : string) :
  all_digits s -> all_digits t -> all_digits (s ++ t).
Proof.
  unfold all_digits. induction s as [|c s IH]; simpl; [auto |].
  intros H Ht. inversion H; subst. constructor; auto.
Qed.

Lemma zero_padded_digits (w : nat) (n : Z) :
  all_digits (Sql.zero_padded w n).
Proof.
  revert n; induction w as [|w IH]; intros n; simpl.
  - constructor.
  - apply all_digits_app; [apply IH |].
    constructor; [apply digit_is_digit | constructor].
Qed.

Lemma string_of_uint_digits (d : Decimal.uint) :
  all_digits (NilEmpty.string_of_uint d).
Proof.
  unfold all_digits.
  induction d; simpl; constructor; try reflexivity; assumption.
Qed.

Lemma grouped_rev_swap (l : list ascii) (k : nat) :
  Forall (fun c => is_digit c = true) l ->
  map swap_char (grouped_rev "," l k) = grouped_rev "." l k.
Proof.
  intros H; revert k; induction H as [|c l Hc Hl IH]; intros k;
    [reflexivity |].
  simpl. destruct k as [|[|[|[|k]]]]; simpl;
    now rewrite (swap_char_digit _ Hc), IH.
Qed.

Lemma grouped_swap (s : string) :
  all_digits s -> swap (grouped "," s) = grouped "." s.
Proof.
  intros H. unfold grouped.
  rewrite swap_of_list, map_rev, grouped_rev_swap; [reflexivity |].
  now apply Forall_rev.
Qed.

(** The replacement chain turns Python's rendering, with its comma for
    thousands and its point for decimals, into the same digits with the
    two marks exchanged. *)
Lemma swap_fixed2 (q : Q) : swap (fixed2 "," "." q) = fixed2 "." "," q.
Proof.
  unfold fixed2. rewrite !swap_app, swap_cons.
  rewrite grouped_swap by apply string_of_uint_digits.
  rewrite (swap_digits (zero_padded_digits 2 _)).
  now destruct (Sql.Qlt_bool q 0).
Qed.

(** C5.  The formatter turns 1234.5 into "R$ 1.234,50" and a missing
    value into "-"; every other value is rendered as "R$ ", the sign, the
    integer part in groups of three separated by ".", a ",", and two
    decimals. *)
Theorem valor_total_formatado_brl :
  valor_total_formatado (Some (2469 # 2)) = "R$ 1.234,50"
  /\ valor_total_formatado None = "-"
  /\ forall q, valor_total_formatado (Some q) = "R$ " ++ fixed2 "." "," q.
Proof.
  split; [reflexivity | split; [reflexivity |]].
  intros q. unfold valor_total_formatado, format_comma_2f.
  change (swap ("R$ " ++ fixed2 "," "." q) = "R$ " ++ fixed2 "." "," q).
  now rewrite swap_app, swap_fixed2.
Qed.

End CurrencyFacts.

(** ** The seasonality fallback *)

Module SeasonalityFacts.

Import Seasonality Spec.
Local Open Scope string_scope.

Section AnyRuntime.
Context {rt : runtime}.

(** *** The [mes_num] column *)

Lemma column_ok (f : alt_row -> Py.outcome Z) (df : list alt_row)
    (cols : list (alt_row * Z)) :
  column f df = Py.Ok cols ->
  cols = map (fun r => (r, cell_value (f r))) df
  /\ Forall (fun r => exists b, f r = Py.Ok b) df.
Proof.
  revert cols; induction df as [|r df IH]; simpl; intros cols H.
  - injection H as <-. split; [reflexivity | constructor].
  - destruct (f r) as [b | e] eqn:Er; simpl in H; [| discriminate].
    destruct (column f df) as [rest | e]; simpl in H; [| discriminate].
    injection H as <-. destruct (IH rest eq_refl) as [-> Hall].
    split; [reflexivity |]. constructor; eauto.
Qed.

Lemma column_total (f : alt_row -> Py.outcome Z) (df : list alt_row) :
  Forall (fun r => exists b, f r = Py.Ok b) df ->
  column f df = Py.Ok (map (fun r => (r, cell_value (f r))) df).
Proof.
  induction 1 as [|r df (b & Hb) _ IH]; simpl; [reflexivity |].
  now rewrite Hb, IH.
Qed.

Lemma column_In (f : alt_row -> Py.outcome Z) (df : list alt_row)
    (cols : list (alt_row * Z)) (r : alt_row) (b : Z) :
  column f df = Py.Ok cols ->
  In (r, b) cols -> In r df /\ f r = Py.Ok b.
Proof.
  intros H Hin. destruct (column_ok _ _ H) as [-> Hall].
  apply in_map_iff in Hin. destruct Hin as (r' & E & Hr).
  injection E as -> <-. split; [exact Hr |].
  rewrite Forall_forall in Hall. destruct (Hall r Hr) as (b & ->).
  reflexivity.
Qed.

Lemma column_raises (f : alt_row -> Py.outcome Z) (df : list alt_row)
    (r : alt_row) (e : Py.exn) :
  In r df -> f r = Py.Raise e -> exists e', column f df = Py.Raise e'.
Proof.
  induction df as [|x df IH]; [contradiction |].
  intros [-> | Hin] Hr; simpl.
  - rewrite Hr. simpl. eauto.
  - destruct (f x) as [b | e0]; simpl; [| eauto].
    destruct (IH Hin Hr) as (e' & ->). simpl. eauto.
Qed.

(** The integer part the cast keeps is the value of the double, moved
    toward zero. *)
Lemma truncated_value (x : spec_float) :
  truncated x = option_map toward_zero (double_value x).
Proof.
  destruct x as [s | s | | s m e]; try reflexivity.
  unfold truncated, double_value, toward_zero.
  destruct (Z.leb_spec 0 e) as [He | He]; destruct s;
    unfold option_map, Qopp, inject_Z; cbn [Qnum Qden]; f_equal.
  - now rewrite Z.quot_1_r.
  - now rewrite Z.quot_1_r.
  - rewrite Z2Pos.id by (apply Z.pow_pos_nonneg; lia).
    rewrite Z.quot_opp_l by (apply Z.pow_nonzero; lia).
    f_equal. symmetry. apply Z.quot_div_nonneg; [lia |].
    apply Z.pow_pos_nonneg; lia.
  - rewrite Z2Pos.id by (apply Z.pow_pos_nonneg; lia).
    symmetry. apply Z.quot_div_nonneg; [lia |].
    apply Z.pow_pos_nonneg; lia.
Qed.

(** Moving toward zero is taking the floor as long as the value is not
    negative. *)
Lemma toward_zero_floor (q : Q) : (0 <= q)%Q -> toward_zero q = Qfloor q.
Proof.
  destruct q as [n d]. unfold Qle, toward_zero, Qfloor. simpl.
  intros H. apply Z.quot_div_nonneg; lia.
Qed.

Lemma scaled_is_ratio (i m : Z) : scaled i m = ratio_times_12 i m.
Proof. reflexivity. Qed.

Lemma mes_num_ok (i m b : Z) :
  mes_num i m = Py.Ok b ->
  exists q,
    double_value (ratio_times_12 i m) = Some q
    /\ (1 <= b <= 12)%Z
    /\ ((Z.abs (toward_zero q) < 2 ^ 31)%Z ->
        b = (toward_zero q mod 12 + 1)%Z).
Proof.
  unfold mes_num, astype_int. rewrite scaled_is_ratio, truncated_value.
  destruct (double_value (ratio_times_12 i m)) as [q |];
    cbn [option_map Py.bind]; [| discriminate].
  destruct (Z.ltb_spec (Z.abs (toward_zero q)) (2 ^ 31)) as [Hs | Hs];
    cbn [Py.bind]; intros H; injection H as <-; exists q.
  - split; [reflexivity |]. split; [| reflexivity].
    pose proof (Z.mod_pos_bound (toward_zero q) 12). lia.
  - split; [reflexivity |]. split; [| lia].
    pose proof (Z.mod_pos_bound (wide_cast (toward_zero q)) 12). lia.
Qed.

Lemma mes_num_raises (i m : Z) :
  double_value (ratio_times_12 i m) = None ->
  exists e, mes_num i m = Py.Raise e.
Proof.
  intros Hv. unfold mes_num, astype_int.
  rewrite scaled_is_ratio, truncated_value, Hv.
  cbn [option_map Py.bind]. eauto.
Qed.

Lemma mes_num_finite (i m : Z) (q : Q) :
  double_value (ratio_times_12 i m) = Some q ->
  exists b, mes_num i m = Py.Ok b.
Proof.
  intros Hv. unfold mes_num, astype_int.
  rewrite scaled_is_ratio, truncated_value, Hv. cbn [option_map].
  destruct (Z.abs (toward_zero q) <? 2 ^ 31)%Z; cbn [Py.bind]; eauto.
Qed.

(** A largest sale id of zero leaves no finite product: zero by zero is
    a NaN. *)
Lemma zero_by_zero : double_value (ratio_times_12 0 0) = None.
Proof. reflexivity. Qed.

Lemma mes_num_cell_ok (mx : option Z) (r : alt_row) (b : Z) :
  mes_num_cell mx r = Py.Ok b ->
  exists i m, alt_vendaId r = Some i /\ mx = Some m
              /\ mes_num i m = Py.Ok b.
Proof.
  unfold mes_num_cell.
  destruct (alt_vendaId r) as [i |]; [| discriminate].
  destruct mx as [m |]; [| discriminate].
  intros H. exists i, m. auto.
Qed.

(** *** The largest sale id does not depend on the order of the rows *)

Lemma non_null_perm {A} (l l' : list (option A)) :
  Permutation l l' -> Permutation (Sql.non_null l) (Sql.non_null l').
Proof.
  induction 1 as [| x l l' _ IH | x y l | l l' l'' _ IH1 _ IH2]; simpl.
  - constructor.
  - destruct x; [now constructor | exact IH].
  - destruct x, y; try apply Permutation_refl. apply perm_swap.
  - now apply perm_trans with (Sql.non_null l').
Qed.

Lemma fold_max_greatest (i : Z) (l : list Z) :
  In (fold_right Z.max i l) (i :: l)
  /\ forall x, In x (i :: l) -> (x <= fold_right Z.max i l)%Z.
Proof.
  induction l as [|a l [Hin Hle]]; simpl.
  - split; [now left |]. intros x [<- | []]. lia.
  - split.
    + destruct (Z.max_spec a (fold_right Z.max i l)) as [[_ ->] | [_ ->]].
      * destruct Hin as [Hin | Hin]; [now left | now right; right].
      * right. now left.
    + intros x [<- | [<- | Hx]].
      * specialize (Hle i (or_introl eq_refl)). lia.
      * lia.
      * specialize (Hle x (or_intror Hx)). lia.
Qed.

Lemma max_venda_perm (df df' : list alt_row) :
  Permutation df df' -> max_venda df = max_venda df'.
Proof.
  intros Hp. unfold max_venda.
  assert (Hids := non_null_perm (Permutation_map alt_vendaId Hp)).
  destruct (Sql.non_null (map alt_vendaId df)) as [|i l].
  - apply Permutation_nil in Hids. now rewrite Hids.
  - destruct (Sql.non_null (map alt_vendaId df')) as [|i' l'].
    + apply Permutation_sym, Permutation_nil in Hids. discriminate.
    + destruct (fold_max_greatest i l) as [Hin Hle].
      destruct (fold_max_greatest i' l') as [Hin' Hle'].
      f_equal. apply Z.le_antisymm.
      * apply Hle'. now apply (Permutation_in _ Hids).
      * apply Hle. now apply (Permutation_in _ (Permutation_sym Hids)).
Qed.

Lemma with_mes_num_perm (df df' : list alt_row)
    (cols : list (alt_row * Z)) :
  with_mes_num df = Py.Ok cols ->
  Permutation df df' ->
  exists cols', with_mes_num df' = Py.Ok cols' /\ Permutation cols cols'.
Proof.
  unfold with_mes_num. intros H Hp.
  rewrite <- (max_venda_perm Hp).
  destruct (column_ok _ _ H) as [-> Hall].
  eexists. split.
  - apply column_total. rewrite Forall_forall in *.
    intros r Hr. apply Hall. now apply (Permutation_in _ (Permutation_sym Hp)).
  - now apply Permutation_map.
Qed.

(** *** The synthesized rows *)

Lemma groupby_sum_In (cols : list (alt_row * Z)) (row : row) :
  In row (groupby_sum cols) ->
  exists x, In x cols /\ produto row = alt_produto (fst x)
            /\ mes row = mes_of (snd x).
Proof.
  unfold groupby_sum. rewrite SqlFacts.order_by_In, in_map_iff.
  intros (g & <- & Hg). simpl.
  destruct (SqlFacts.group_by_In _ _ _ _ Hg) as (_ & x & Hx & E).
  exists x. rewrite <- E. auto.
Qed.

Lemma fallback_run (conn : connection) (top_n : Z) (df : list alt_row)
    (cols : list (alt_row * Z)) :
  read_sql (query top_n) conn = Py.Ok [] ->
  read_sql (query_alt top_n) conn = Py.Ok df ->
  with_mes_num df = Py.Ok cols ->
  get_seasonality_data (Some conn) top_n = Py.Ok (groupby_sum cols).
Proof.
  destruct conn as [w | e]; simpl; [| discriminate].
  intros Hq Ha Hc. injection Hq as ->. injection Ha as ->. simpl.
  destruct df as [|r df].
  - injection Hc as <-. reflexivity.
  - unfold synthesize. now rewrite Hc.
Qed.

(** A frame with a missing sale id, or whose largest id is zero, makes
    [astype(int)] raise; the function reports it and returns no rows. *)
Lemma fallback_raises_no_rows (w : tables) (top_n : Z) (e : Py.exn) :
  query top_n w = [] ->
  with_mes_num (query_alt top_n w) = Py.Raise e ->
  get_seasonality_data (Some (Serving w)) top_n = Py.Ok [].
Proof.
  intros Hq He. simpl. rewrite Hq. simpl.
  destruct (query_alt top_n w) as [|r df] eqn:E; [reflexivity |].
  unfold synthesize. now rewrite He.
Qed.


Lemma max_venda_largest (df : list alt_row) (m : Z) :
  max_venda df = Some m -> largest_id df m.
Proof.
  unfold max_venda, largest_id.
  destruct (Sql.non_null (map alt_vendaId df)) as [|i l] eqn:E;
    [discriminate |].
  intros H; injection H as <-.
  destruct (fold_max_greatest i l) as [Hin Hle]. rewrite <- E in Hin, Hle.
  split.
  - now apply StockFacts.In_non_null.
  - intros j Hj. apply Hle. now apply StockFacts.In_non_null.
Qed.

Lemma largest_is_max_venda (df : list alt_row) (m : Z) :
  largest_id df m -> max_venda df = Some m.
Proof.
  intros [Hin Hle]. unfold max_venda.
  destruct (Sql.non_null (map alt_vendaId df)) as [|i l] eqn:E.
  - apply StockFacts.In_non_null in Hin. rewrite E in Hin. contradiction.
  - destruct (fold_max_greatest i l) as [Hin' Hle']. rewrite <- E in *.
    f_equal. apply Z.le_antisymm.
    + apply Hle. now apply StockFacts.In_non_null.
    + apply Hle'. now apply StockFacts.In_non_null.
Qed.

Lemma no_bucket_raises (df : list alt_row) (r : alt_row) :
  no_bucket_for df r ->
  exists e, mes_num_cell (max_venda df) r = Py.Raise e.
Proof.
  unfold mes_num_cell. intros [-> | (i & m & -> & Hm & Hv)]; [eauto |].
  rewrite (largest_is_max_venda Hm). now apply mes_num_raises.
Qed.

Lemma bucket_or_none (df : list alt_row) (r : alt_row) :
  In r df -> ~ no_bucket_for df r ->
  exists b, mes_num_cell (max_venda df) r = Py.Ok b.
Proof.
  intros Hr Hok. unfold mes_num_cell.
  destruct (alt_vendaId r) as [i |] eqn:Ei;
    [| exfalso; apply Hok; now left].
  destruct (max_venda df) as [m |] eqn:Em.
  - destruct (double_value (ratio_times_12 i m)) as [q |] eqn:Eq.
    + now apply mes_num_finite with q.
    + exfalso. apply Hok. right. exists i, m.
      repeat split; auto; now apply max_venda_largest.
  - exfalso. unfold max_venda in Em.
    assert (Hin : In i (Sql.non_null (map alt_vendaId df))).
    { apply StockFacts.In_non_null. rewrite <- Ei. now apply in_map. }
    destruct (Sql.non_null (map alt_vendaId df));
      [contradiction | discriminate].
Qed.

(** C6, amended.  When the primary query returns no rows, the fallback
    works on the product [saleId / maxSaleId * 12] computed in binary64.
    If some record has no sale id or a product that is not finite (as
    when the largest id is 0), the cast fails and no record is synthesized.
    Otherwise each record gets the bucket [trunc(product) mod 12 + 1], the
    fraction cut off toward zero (for an integer part within 32 bits),
    which is the floor formula whenever the product is not negative; every
    bucket lies in 1..12, every synthesized month is "2024-" followed by
    the two digits of a bucket, and the buckets do not depend on the order
    in which the rows arrive. *)
Theorem fallback_buckets
    (conn : connection) (top_n : Z) (df : list alt_row) :
  read_sql (query top_n) conn = Py.Ok [] ->
  read_sql (query_alt top_n) conn = Py.Ok df ->
  ((exists r, In r df /\ no_bucket_for df r) ->
   get_seasonality_data (Some conn) top_n = Py.Ok [])
  /\ ((exists r, In r df /\ alt_vendaId r = None) \/ largest_id df 0 ->
      exists r, In r df /\ no_bucket_for df r)
  /\ ((forall r, In r df -> ~ no_bucket_for df r) ->
      exists cols,
        map fst cols = df
        /\ get_seasonality_data (Some conn) top_n
           = Py.Ok (groupby_sum cols)
        /\ (forall r b, In (r, b) cols ->
              exists i m q,
                alt_vendaId r = Some i
                /\ largest_id df m
                /\ double_value (ratio_times_12 i m) = Some q
                /\ (1 <= b <= 12)%Z
                /\ ((Z.abs (toward_zero q) < 2 ^ 31)%Z ->
                    b = (toward_zero q mod 12 + 1)%Z)
                /\ ((0 <= q)%Q -> toward_zero q = Qfloor q))
        /\ (forall row, In row (groupby_sum cols) ->
              exists b, (1 <= b <= 12)%Z
                        /\ mes row = "2024-" ++ Sql.zero_padded 2 b)
        /\ (forall df', Permutation df df' ->
              exists cols', with_mes_num df' = Py.Ok cols'
                            /\ Permutation cols cols')).
Proof.
  intros Hq Ha.
  assert (Hw : exists w, conn = Serving w /\ query top_n w = []
                         /\ query_alt top_n w = df).
  { destruct conn as [w | e]; [| discriminate]. exists w.
    simpl in Hq, Ha. injection Hq as Hq. injection Ha as Ha. auto. }
  destruct Hw as (w & -> & Hq0 & Ha0).
  split; [| split].
  - intros (r & Hr & Hbad).
    destruct (no_bucket_raises Hbad) as (e & He).
    destruct (column_raises _ _ _ Hr He) as (e' & He').
    apply fallback_raises_no_rows with e'; [exact Hq0 |].
    rewrite Ha0. exact He'.
  - intros [(r & Hr & Hnone) | [Hin Hle]].
    + exists r. split; [exact Hr | now left].
    + pose proof Hin as Hin0.
      apply in_map_iff in Hin. destruct Hin as (r & Hi & Hr).
      exists r. split; [exact Hr |]. right. exists 0%Z, 0%Z.
      split; [exact Hi |]. split; [| exact zero_by_zero].
      split; [exact Hin0 | exact Hle].
  - intros Hall.
    assert (Hcells : Forall (fun r => exists b,
                       mes_num_cell (max_venda df) r = Py.Ok b) df).
    { apply Forall_forall. intros r Hr. apply bucket_or_none; auto. }
    pose proof (column_total _ Hcells) as Hc.
    remember (map (fun r => (r, cell_value
                (mes_num_cell (max_venda df) r))) df) as cols eqn:Ecols.
    assert (Hcell : forall r b, In (r, b) cols ->
              exists i m q,
                alt_vendaId r = Some i
                /\ largest_id df m
                /\ double_value (ratio_times_12 i m) = Some q
                /\ (1 <= b <= 12)%Z
                /\ ((Z.abs (toward_zero q) < 2 ^ 31)%Z ->
                    b = (toward_zero q mod 12 + 1)%Z)
                /\ ((0 <= q)%Q -> toward_zero q = Qfloor q)).
    { intros r b Hin. destruct (column_In _ _ _ _ Hc Hin) as [_ Hb].
      destruct (mes_num_cell_ok _ _ Hb) as (i & m & Hi & Hm & Hn).
      destruct (mes_num_ok _ _ Hn) as (q & Hv & Hrange & Hform).
      exists i, m, q. split; [exact Hi |].
      split; [now apply max_venda_largest |].
      split; [exact Hv |]. split; [exact Hrange |].
      split; [exact Hform | apply toward_zero_floor]. }
    exists cols. split; [| split; [| split; [| split]]].
    + rewrite Ecols, map_map. simpl. apply map_id.
    + apply fallback_run with df; auto.
    + exact Hcell.
    + intros row Hrow.
      destruct (groupby_sum_In _ _ Hrow) as ([r b] & Hin & _ & ->).
      destruct (Hcell r b Hin) as (_ & _ & _ & _ & _ & _ & Hb & _).
      exists b. split; [exact Hb | reflexivity].
    + intros df' Hp. now apply with_mes_num_perm with df.
Qed.

End AnyRuntime.

Section OnTheLab.
#[local] Existing Instance lab.

(** C6 as stated fails where a sale id is negative: with ids -1 and 10
    the code puts id -1 in bucket 12, the floor formula says 11. *)
Lemma bucket_of_negative_id_is_not_floor :
  ~ (forall conn top_n df cols r b i m,
        read_sql (query top_n) conn = Py.Ok [] ->
        read_sql (query_alt top_n) conn = Py.Ok df ->
        with_mes_num df = Py.Ok cols ->
        In (r, b) cols ->
        alt_vendaId r = Some i ->
        largest_id df m ->
        b = floor_bucket i m).
Proof.
  intros H.
  specialize (H (Serving undated) 2%Z undated_frame undated_buckets
                (undated_alt (-1)) 12%Z (-1)%Z 10%Z).
  assert (E : 12%Z = floor_bucket (-1) 10).
  { apply H; try reflexivity.
    - left. reflexivity.
    - split.
      + right. left. reflexivity.
      + intros j [E | [E | [E | []]]]; injection E as <-; lia. }
  vm_compute in E. discriminate E.
Qed.

Lemma fallback_buckets_witness :
  ((exists r, In r undated_frame /\ no_bucket_for undated_frame r) ->
   get_seasonality_data (Some (Serving undated)) 2 = Py.Ok [])
  /\ ((exists r, In r undated_frame /\ alt_vendaId r = None)
      \/ largest_id undated_frame 0 ->
      exists r, In r undated_frame /\ no_bucket_for undated_frame r)
  /\ ((forall r, In r undated_frame -> ~ no_bucket_for undated_frame r) ->
      exists cols,
        map fst cols = undated_frame
        /\ get_seasonality_data (Some (Serving undated)) 2
           = Py.Ok (groupby_sum cols)
        /\ (forall r b, In (r, b) cols ->
              exists i m q,
                alt_vendaId r = Some i
                /\ largest_id undated_frame m
                /\ double_value (ratio_times_12 i m) = Some q
                /\ (1 <= b <= 12)%Z
                /\ ((Z.abs (toward_zero q) < 2 ^ 31)%Z ->
                    b = (toward_zero q mod 12 + 1)%Z)
                /\ ((0 <= q)%Q -> toward_zero q = Qfloor q))
        /\ (forall row, In row (groupby_sum cols) ->
              exists b, (1 <= b <= 12)%Z
                        /\ mes row = "2024-" ++ Sql.zero_padded 2 b)
        /\ (forall df', Permutation undated_frame df' ->
              exists cols', with_mes_num df' = Py.Ok cols'
                            /\ Permutation cols cols')).
Proof.
  apply (fallback_buckets (Serving undated) 2 (df := undated_frame));
    reflexivity.
Defined.

(** Every record of the undated frame has a sale id and a finite
    product, so each gets its bucket. *)
Example undated_frame_has_buckets :
  forall r, In r undated_frame -> ~ no_bucket_for undated_frame r.
Proof.
  intros r Hr [Hnone | (i & m & Hi & [Hin Hle] & Hv)].
  - destruct Hr as [<- | [<- | [<- | []]]]; discriminate Hnone.
  - assert (Em : m = 10%Z).
    { assert (H10 : (10 <= m)%Z)
        by (apply Hle; right; left; reflexivity).
      destruct Hin as [E | [E | [E | []]]]; injection E as <-; lia. }
    subst m.
    destruct Hr as [<- | [<- | [<- | []]]]; injection Hi as <-;
      vm_compute in Hv; discriminate Hv.
Qed.

(** On the undated sale lines the function answers with one row per
    product and bucket, all in 2024. *)
Example fallback_on_undated_sales :
  get_seasonality_data (Some (Serving undated)) 2
  = Py.Ok [ {| produto := "Prego"; mes := "2024-01";
               quantidade := Some (inject_Z 1) |};
            {| produto := "Prego"; mes := "2024-12";
               quantidade := Some (inject_Z 1) |};
            {| produto := "Rebite"; mes := "2024-07";
               quantidade := Some (inject_Z 1) |} ].
Proof. vm_compute. reflexivity. Qed.

(** Two sale ids near 10^15: the quotient is rounded up to a double whose
    product with 12 is exactly 11, so the bucket is 12, where the exact
    quotient would give 11. *)
Example rounding_moves_a_bucket :
  mes_num 910381795526202 993143776937675 = Py.Ok 12%Z
  /\ floor_bucket 910381795526202 993143776937675 = 11%Z.
Proof. split; vm_compute; reflexivity. Qed.

End OnTheLab.

End SeasonalityFacts.

(** ** More on the ranking view *)

Module RankingMore.

Import Ranking RankingTab RankingMetrics Spec.
Local Open Scope string_scope.

Lemma filter_keeps_all {A} (keep : A -> bool) (rows : list A) :
  (forall x, In x rows -> keep x = true) -> filter keep rows = rows.
Proof.
  induction rows as [|x rows IH]; simpl; intros H; [reflexivity |].
  rewrite (H x (or_introl eq_refl)). f_equal. apply IH. auto.
Qed.

(** Every row of the ranking query names its product and carries a
    quantity. *)
Lemma ranking_rows_complete (limit : Z) (w : tables) (r : row) :
  In r (query limit w) -> has_required r = true.
Proof.
  intros Hr. destruct (RankingFacts.ranking_query_In _ _ _ Hr) as (g & Hg & ->).
  unfold has_required. simpl.
  destruct (RankingFacts.SUM_positive (l := map qtde (snd g)))
    as (q & -> & _); [| | reflexivity].
  - intros E. apply map_eq_nil in E. revert E.
    exact (SqlFacts.group_nonempty _ _ _ _ Hg).
  - apply Forall_forall. intros x Hx. apply in_map_iff in Hx.
    destruct Hx as (s & <- & Hs).
    apply (SqlFacts.group_member _ _ _ _ s Hg) in Hs.
    destruct Hs as [Hs _]. apply filter_In in Hs. destruct Hs as [_ Hq].
    destruct (RankingFacts.qualifies_spec _ Hq) as (d & q & _ & -> & Hpos).
    eauto.
Qed.

Lemma dropna_query (limit : Z) (w : tables) :
  dropna (query limit w) = query limit w.
Proof.
  apply filter_keeps_all. intros r. apply ranking_rows_complete.
Qed.

(** X1.  Neither cleaning pass drops anything the ranking query returned:
    the chart receives the query's rows, all of them and in their order. *)
Theorem chart_receives_every_query_row
    (c : option connection) (top_n : Z) (rows : list (row * string)) :
  tab1 c top_n = Py.Ok rows ->
  map fst rows = query top_n (tables_of c).
Proof.
  intros H. rewrite (NormalizerFacts.tab1_rows _ _ H).
  rewrite map_map. simpl. rewrite map_id. apply dropna_query.
Qed.

Lemma chart_receives_every_query_row_witness :
  map fst [(top_parafuso, "R$ 100,00"); (top_arruela, "R$ 15,00")]
  = query 2 (tables_of demo_connection).
Proof.
  apply (chart_receives_every_query_row demo_connection 2). reflexivity.
Defined.

Lemma distinct_names (w : tables) :
  Sql.non_null (map Total.trimmed (filter Total.qualifies (itens_venda_mm w)))
  = map key (filter Total.qualifies (itens_venda_mm w)).
Proof.
  induction (itens_venda_mm w) as [|x l IH]; simpl; [reflexivity |].
  destruct (Total.qualifies x) eqn:E; [| exact IH].
  simpl. unfold Total.trimmed at 1, key at 1.
  destruct (RankingFacts.qualifies_spec _ E) as (d & _ & -> & _).
  simpl. now rewrite IH.
Qed.

Lemma query_length (limit : Z) (w : tables) :
  List.length (query limit w)
  = Nat.min (Z.to_nat limit)
      (List.length
         (nodup string_dec
            (map key (filter Total.qualifies (itens_venda_mm w))))).
Proof.
  unfold query, Sql.LIMIT. rewrite length_firstn. f_equal.
  rewrite (Permutation_length (SqlFacts.order_by_perm _ _)).
  rewrite length_map. unfold Sql.group_by. now rewrite length_map.
Qed.

(** X2.  On a serving connection the ranking has as many rows as the limit
    asks for, or as many as [get_total_products] counts when that is
    fewer. *)
Theorem ranking_has_min_limit_total_rows
    (w : tables) (limit total : Z) (rows : list row) :
  (0 <= limit)%Z ->
  Total.get_total_products (Some (Serving w)) = Py.Ok total ->
  get_top_products (Some (Serving w)) limit = Py.Ok rows ->
  Z.of_nat (List.length rows) = Z.min limit total.
Proof.
  intros Hlim Htot Hrun.
  rewrite (RankingFacts.get_top_products_rows _ _ Hrun). simpl tables_of.
  rewrite dropna_query, query_length.
  simpl in Htot. injection Htot as <-.
  unfold Sql.COUNT_DISTINCT. rewrite distinct_names. lia.
Qed.

Lemma ranking_has_min_limit_total_rows_witness :
  Z.of_nat (List.length [top_parafuso; top_arruela]) = Z.min 2 3.
Proof.
  apply (ranking_has_min_limit_total_rows (w := demo) (limit := 2));
    [lia | reflexivity | reflexivity].
Defined.

(** *** Any answer of the engine *)

Lemma ranking_groups_NoDup (w : tables) : NoDup (ranking_groups w).
Proof.
  apply NoDup_map_inv with (f := fst). apply SqlFacts.group_by_NoDup.
Qed.

Lemma group_quantity_present (w : tables) (g : string * list itens_venda) :
  In g (ranking_groups w) ->
  exists q, Sql.SUM (map qtde (snd g)) = Some q.
Proof.
  intros Hg.
  destruct (RankingFacts.SUM_positive (l := map qtde (snd g)))
    as (q & Hq & _); [| | now exists q].
  - intros E. apply map_eq_nil in E. revert E.
    exact (SqlFacts.group_nonempty _ _ _ _ Hg).
  - apply Forall_forall. intros x Hx. apply in_map_iff in Hx.
    destruct Hx as (s & <- & Hs).
    apply (SqlFacts.group_member _ _ _ _ s Hg) in Hs.
    destruct Hs as [Hs _]. apply filter_In in Hs. destruct Hs as [_ Hq].
    destruct (RankingFacts.qualifies_spec _ Hq) as (d & q & _ & -> & Hpos).
    eauto.
Qed.

Lemma answers_same_columns (o o' : list row)
    (gs : list (string * list itens_venda)) :
  Forall2 answers o gs -> Forall2 answers o' gs ->
  map determined o = map determined o'.
Proof.
  intros H. revert o'. induction H as [|r g o gs Hr _ IH]; intros o' H';
    inversion H' as [|r' ? o'' ? Hr' Ho']; subst; [reflexivity |].
  simpl. f_equal; [| now apply IH].
  destruct Hr as (E1 & E2 & E3 & E4 & _), Hr' as (F1 & F2 & F3 & F4 & _).
  unfold determined. congruence.
Qed.

Lemma answer_of_member (o : list row)
    (gs : list (string * list itens_venda)) (g : string * list itens_venda) :
  Forall2 answers o gs -> In g gs -> exists r, In r o /\ answers r g.
Proof.
  induction 1 as [|r g0 o gs Hr _ IH]; [contradiction |].
  intros [-> | Hin]; [exists r; split; [now left | exact Hr] |].
  destruct (IH Hin) as (r' & Hr' & Ha). exists r'. split; [now right | auto].
Qed.

(** With no two totals alike, the descending order leaves one way to
    arrange the groups. *)
Lemma one_descending_order (o1 : list row)
    (gs1 : list (string * list itens_venda)) :
  Forall2 answers o1 gs1 ->
  forall o2 gs2,
    Forall2 answers o2 gs2 ->
    Permutation gs1 gs2 ->
    NoDup gs1 ->
    (forall g g', In g gs1 -> In g' gs1 -> g <> g' ->
       forall x y, Sql.SUM (map qtde (snd g)) = Some x ->
                   Sql.SUM (map qtde (snd g')) = Some y -> ~ (x == y)%Q) ->
    StronglySorted qty_desc o1 -> StronglySorted qty_desc o2 ->
    gs1 = gs2.
Proof.
  induction 1 as [|r1 g1 o1 gs1 Hr1 Ho1 IH];
    intros o2 gs2 H2 Hperm Hnd Hties Hs1 Hs2.
  - apply Permutation_nil in Hperm. now subst.
  - inversion H2 as [|r2 g2 o2' gs2' Hr2 Ho2]; subst.
    { apply Permutation_sym, Permutation_nil in Hperm. discriminate. }
    inversion Hnd as [|? ? Hnotin Hnd']; subst.
    inversion Hs1 as [|? ? Hs1' Hh1]; subst.
    inversion Hs2 as [|? ? Hs2' Hh2]; subst.
    rewrite Forall_forall in Hh1, Hh2.
    assert (Hin1 : In g1 (g2 :: gs2'))
      by (apply (Permutation_in _ Hperm); now left).
    assert (Hin2 : In g2 (g1 :: gs1))
      by (apply (Permutation_in _ (Permutation_sym Hperm)); now left).
    assert (E : g1 = g2).
    { destruct Hin2 as [E | Hin2]; [exact E |].
      destruct Hin1 as [E | Hin1]; [now symmetry |]. exfalso.
      destruct (@answer_of_member _ _ _ Ho1 Hin2) as (ra & Hra & Ha).
      destruct (@answer_of_member _ _ _ Ho2 Hin1) as (rb & Hrb & Hb).
      pose proof (Hh1 ra Hra) as D1. pose proof (Hh2 rb Hrb) as D2.
      unfold qty_desc in D1, D2.
      destruct Hr1 as (_ & Q1 & _), Hr2 as (_ & Q2 & _).
      destruct Ha as (_ & Qa & _), Hb as (_ & Qb & _).
      rewrite Q1, Qa in D1. rewrite Q2, Qb in D2.
      destruct (Sql.SUM (map qtde (snd g1))) as [x |] eqn:E1;
        [| contradiction].
      destruct (Sql.SUM (map qtde (snd g2))) as [y |] eqn:E2;
        [| contradiction].
      apply (Hties g1 g2) with (x := x) (y := y); auto.
      - now left.
      - now right.
      - intros ->. contradiction.
      - now apply Qle_antisym. }
    subst g2. f_equal.
    apply (IH o2' gs2'); auto.
    + now apply Permutation_cons_inv with g1.
    + intros g g' Hg Hg'. apply Hties; now right.
Qed.

Lemma query_is_an_answer (n : Z) (w : tables) :
  ranking_answer n w (query n w).
Proof.
  set (sorted := Sql.order_by by_quantidade_desc
                   (map aggregate (ranking_groups w))).
  destruct (Permutation_map_inv aggregate (ranking_groups w)
              (l1 := sorted)) as (gs & Egs & Hperm).
  { apply SqlFacts.order_by_perm. }
  assert (Hmem : forall g, In g gs -> In g (ranking_groups w)).
  { intros g Hg. now apply (Permutation_in _ (Permutation_sym Hperm)). }
  exists sorted, gs. split; [now apply Permutation_sym |].
  split; [| split; [| reflexivity]].
  - rewrite Egs. clear Egs Hperm.
    induction gs as [|g gs IH]; simpl; constructor.
    + repeat split. simpl. unfold Sql.FIRST.
      pose proof (SqlFacts.group_nonempty _ _ _ _ (Hmem g (or_introl eq_refl)))
        as Hne.
      destruct (snd g) as [|x l]; [congruence | now left].
    + apply IH. intros g' Hg'. apply Hmem. now right.
  - apply RankingFacts.strongly_sorted_refine
      with (R := fun a b => by_quantidade_desc a b = true)
           (P := fun r => exists q, quantidade_total r = Some q).
    + intros a b (x & Ha) (y & Hb). unfold by_quantidade_desc, qty_desc.
      rewrite Ha, Hb. simpl. apply Qle_bool_iff.
    + apply Forall_forall. intros r Hr. rewrite Egs in Hr.
      apply in_map_iff in Hr. destruct Hr as (g & <- & Hg). simpl.
      apply group_quantity_present with w. now apply Hmem.
    + apply SqlFacts.order_by_strongly_sorted.
      * intros x y. apply RankingFacts.desc_total.
      * intros x y z. apply RankingFacts.desc_trans.
Qed.

(** X3.  The engine may return the rows of tied products in any order and
    any unit of a group.  When no two products sold the same total, any
    answer to the query with a smaller limit agrees, on product, total
    quantity, number of sales and total value, with the first rows of any
    answer with a larger limit: raising the limit only appends rows.  What
    [get_top_products] returns is one such answer, and its cleaning steps
    leave every answer as it is. *)
Theorem smaller_limit_is_prefix (w : tables) (n n' : Z) :
  (0 <= n <= n')%Z ->
  no_ties w ->
  (forall df df',
     ranking_answer n w df -> ranking_answer n' w df' ->
     map determined df = firstn (Z.to_nat n) (map determined df'))
  /\ (forall rows,
        get_top_products (Some (Serving w)) n = Py.Ok rows ->
        ranking_answer n w rows)
  /\ (forall df, ranking_answer n w df -> dropna (map coerce df) = df).
Proof.
  intros Hn Hties. split; [| split].
  - intros df df' (o1 & gs1 & P1 & A1 & S1 & ->)
                  (o2 & gs2 & P2 & A2 & S2 & ->).
    assert (E : gs1 = gs2).
    { apply (one_descending_order A1 A2); auto.
      - apply Permutation_trans with (ranking_groups w);
          [exact P1 | now apply Permutation_sym].
      - apply (Permutation_NoDup (Permutation_sym P1)).
        apply ranking_groups_NoDup.
      - intros g g' Hg Hg'. apply Hties; now apply (Permutation_in _ P1). }
    subst gs2. rewrite <- !firstn_map.
    rewrite (answers_same_columns A1 A2), firstn_firstn.
    f_equal. lia.
  - intros rows Hrun.
    rewrite (RankingFacts.get_top_products_rows _ _ Hrun). simpl tables_of.
    rewrite dropna_query. apply query_is_an_answer.
  - intros df (o & gs & P & A & _ & ->).
    rewrite (map_ext coerce (fun r => r)) by (now intros []).
    rewrite map_id. apply filter_keeps_all. intros r Hr.
    apply SqlFacts.firstn_In in Hr.
    assert (Hg : exists g, In g gs /\ answers r g).
    { clear - A Hr. induction A as [|r0 g0 o gs H0 _ IH]; [contradiction |].
      destruct Hr as [-> | Hr]; [exists g0; split; [now left | auto] |].
      destruct (IH Hr) as (g & Hg & Ha). exists g. split; [now right | auto]. }
    destruct Hg as (g & Hg & (Ep & Eq & _)).
    destruct (group_quantity_present w g) as (q & Hq);
      [now apply (Permutation_in _ P) |].
    unfold has_required. now rewrite Ep, Eq, Hq.
Qed.

Lemma demo_has_no_ties : no_ties demo.
Proof.
  intros g g' Hg Hg' Hne x y Hx Hy.
  vm_compute in Hg, Hg'.
  destruct Hg as [<- | [<- | [<- | []]]];
    destruct Hg' as [<- | [<- | [<- | []]]];
    try (exfalso; apply Hne; reflexivity);
    vm_compute in Hx, Hy; injection Hx as <-; injection Hy as <-;
    discriminate.
Qed.

Lemma smaller_limit_is_prefix_witness :
  (forall df df',
     ranking_answer 1 demo df -> ranking_answer 2 demo df' ->
     map determined df = firstn (Z.to_nat 1) (map determined df'))
  /\ (forall rows,
        get_top_products (Some (Serving demo)) 1 = Py.Ok rows ->
        ranking_answer 1 demo rows)
  /\ (forall df, ranking_answer 1 demo df -> dropna (map coerce df) = df).
Proof.
  apply (smaller_limit_is_prefix (w := demo) (n := 1) (n' := 2));
    [lia | exact demo_has_no_ties].
Defined.

Lemma clean_is_query (c : option connection) (top_n : Z)
    (produtos_top : list row) :
  get_top_products c top_n = Py.Ok produtos_top ->
  produtos_top_clean produtos_top = query top_n (tables_of c).
Proof.
  intros H. rewrite (RankingFacts.get_top_products_rows _ _ H).
  rewrite NormalizerFacts.produtos_top_clean_dropna. apply dropna_query.
Qed.

(** X4.  The product shown as leader is the first row of the cleaned frame
    and no row of that frame has a larger total quantity; whenever the
    frame has a row, the leader is a product name and not the "N/A"
    placeholder branch. *)
Theorem leader_has_largest_quantity
    (c : option connection) (top_n : Z) (produtos_top : list row) (r : row) :
  get_top_products c top_n = Py.Ok produtos_top ->
  In r (produtos_top_clean produtos_top) ->
  exists leader rest name q q_leader,
    produtos_top_clean produtos_top = leader :: rest
    /\ produto leader = Some name
    /\ primeiro_produto (produtos_top_clean produtos_top) = name
    /\ quantidade_total r = Some q
    /\ quantidade_total leader = Some q_leader
    /\ (q <= q_leader)%Q.
Proof.
  intros Hrun Hr. rewrite (clean_is_query _ _ Hrun) in *.
  pose proof (RankingFacts.query_sorted top_n (tables_of c)) as Hs.
  assert (Hreq : forall x, In x (query top_n (tables_of c)) ->
                 exists p q, produto x = Some p /\ quantidade_total x = Some q).
  { intros x Hx. apply ranking_rows_complete in Hx.
    unfold has_required in Hx. apply andb_true_iff in Hx.
    destruct (produto x) as [p |], (quantidade_total x) as [q |];
      destruct Hx; try discriminate. eauto. }
  destruct (query top_n (tables_of c)) as [|leader rest]; [contradiction |].
  destruct (Hreq leader (or_introl eq_refl)) as (name & ql & Hname & Hql).
  destruct (Hreq r Hr) as (_ & q & _ & Hq).
  exists leader, rest, name, q, ql. repeat split; auto.
  - simpl. now rewrite Hname.
  - destruct Hr as [<- | Hr].
    + rewrite Hq in Hql. injection Hql as <-. apply Qle_refl.
    + inversion Hs as [|? ? _ Hall]; subst.
      rewrite Forall_forall in Hall. specialize (Hall r Hr).
      unfold by_quantidade_desc in Hall. rewrite Hq, Hql in Hall.
      simpl in Hall. now apply Qle_bool_iff.
Qed.

Lemma leader_has_largest_quantity_witness :
  exists leader rest name q q_leader,
    produtos_top_clean [top_parafuso; top_arruela] = leader :: rest
    /\ produto leader = Some name
    /\ primeiro_produto (produtos_top_clean [top_parafuso; top_arruela])
       = name
    /\ quantidade_total top_arruela = Some q
    /\ quantidade_total leader = Some q_leader
    /\ (q <= q_leader)%Q.
Proof.
  apply (leader_has_largest_quantity demo_connection 2).
  - reflexivity.
  - right. left. reflexivity.
Defined.

End RankingMore.

(** ** Failures, and the controls in front of the queries *)

Module BoundaryFacts.

Import Spec Widgets.

Section AnyRuntime.
Context {rt : runtime}.

Lemma seasonality_total (c : option connection) (top_n : Z) :
  exists rows, Seasonality.get_seasonality_data c top_n = Py.Ok rows.
Proof.
  destruct c as [[w | e] |]; simpl; try (eexists; reflexivity).
  destruct (Seasonality.query top_n w) as [|r df]; simpl;
    [| eexists; reflexivity].
  destruct (Seasonality.query_alt top_n w) as [|a alt]; simpl;
    [eexists; reflexivity |].
  unfold Seasonality.synthesize.
  destruct (Seasonality.with_mes_num (a :: alt)); simpl;
    eexists; reflexivity.
Qed.

(** X5.  A connection that could not be made becomes [None]; without a
    connection, or on a session whose statements fail, the three data
    functions return the empty frame; and on no connection at all does any
    of them let an exception out, not even the integer cast of the
    seasonality fallback. *)
Theorem queries_degrade_to_empty :
  (forall e, Provider.get_databricks_connection (Py.Raise e) = Py.Ok None)
  /\ (forall c top_n,
        c = None \/ (exists e, c = Some (Failing e)) ->
        Ranking.get_top_products c top_n = Py.Ok []
        /\ Seasonality.get_seasonality_data c top_n = Py.Ok []
        /\ Stock.analyze_stock c top_n = Py.Ok [])
  /\ (forall c top_n,
        (exists rows, Ranking.get_top_products c top_n = Py.Ok rows)
        /\ (exists rows, Seasonality.get_seasonality_data c top_n = Py.Ok rows)
        /\ (exists rows, Stock.analyze_stock c top_n = Py.Ok rows)).
Proof.
  split; [reflexivity | split].
  - intros c top_n [-> | (e & ->)]; repeat split.
  - intros c top_n. split; [apply RankingFacts.get_top_products_total |].
    split; [apply seasonality_total |].
    destruct c as [[w | e] |]; simpl; eexists; reflexivity.
Qed.

End AnyRuntime.

(** X6.  The slider's default lies between its bounds exactly when there
    are at least two products; the maximum never exceeds 50; and with the
    fallback count of 10 the slider runs from 2 to 10 and starts at 10. *)
Theorem slider_arguments_valid (total_produtos : Z) :
  (within slider_min (slider_max total_produtos) (slider_value total_produtos)
   <-> (2 <= total_produtos)%Z)
  /\ (slider_max total_produtos <= 50)%Z
  /\ (slider_max 10 = 10 /\ slider_value 10 = 10)%Z.
Proof.
  unfold within, slider_min, slider_max, slider_value. repeat split; lia.
Qed.

(** X7.  Every position of the slider is an admissible default for the
    number input, and whatever the number input returns is at least 2, at
    most 100 and at most the product count. *)
Theorem input_accepts_slider (total_produtos top_n_slider top_n_input : Z) :
  (within slider_min (slider_max total_produtos) top_n_slider ->
   within input_min (input_max total_produtos) top_n_slider)
  /\ (within input_min (input_max total_produtos) top_n_input ->
      (2 <= Controls.top_n top_n_input top_n_slider <= 100)%Z
      /\ (Controls.top_n top_n_input top_n_slider <= total_produtos)%Z).
Proof.
  unfold within, slider_min, slider_max, input_min, input_max, Controls.top_n.
  split; [lia |].
  destruct (Z.eqb_spec top_n_input top_n_slider); simpl; lia.
Qed.

(** X8.  With the product count read from the same tables, a value the
    number input can return makes the ranking return exactly that many
    rows. *)
Theorem ranking_returns_top_n_rows
    (w : tables) (total_produtos top_n_slider top_n_input : Z)
    (rows : list Ranking.row) :
  Total.get_total_products (Some (Serving w)) = Py.Ok total_produtos ->
  within input_min (input_max total_produtos) top_n_input ->
  Ranking.get_top_products (Some (Serving w))
    (Controls.top_n top_n_input top_n_slider) = Py.Ok rows ->
  Z.of_nat (List.length rows) = top_n_input.
Proof.
  intros Htot Hin Hrun.
  assert (E : Controls.top_n top_n_input top_n_slider = top_n_input).
  { unfold Controls.top_n.
    destruct (Z.eqb_spec top_n_input top_n_slider); simpl; congruence. }
  rewrite E in Hrun. unfold within, input_min, input_max in Hin.
  rewrite (RankingFacts.get_top_products_rows _ _ Hrun). simpl tables_of.
  rewrite RankingMore.dropna_query, RankingMore.query_length.
  simpl in Htot. injection Htot as <-.
  revert Hin. unfold Sql.COUNT_DISTINCT.
  rewrite RankingMore.distinct_names. lia.
Qed.

Lemma ranking_returns_top_n_rows_witness :
  Z.of_nat (List.length [top_parafuso; top_arruela]) = 2%Z.
Proof.
  apply (ranking_returns_top_n_rows (w := demo) (total_produtos := 3) 3);
    [reflexivity | unfold within, input_min, input_max; lia | reflexivity].
Defined.

End BoundaryFacts.

(** ** More on the stock view *)

Module StockMore.

Import Stock StockTab Spec Vocabulary.
Local Open Scope string_scope.

Section AnyRuntime.
Context {rt : runtime}.

Lemma analyze_stock_serving (w : tables) (top_n : Z) (rows : list row) :
  analyze_stock (Some (Serving w)) top_n = Py.Ok rows ->
  rows = query top_n w.
Proof. simpl. intros H. now injection H. Qed.

Lemma flat_map_rows {A B} (f : A -> list B) (l : list A) :
  List.length (flat_map f l)
  = list_sum (map (fun x => List.length (f x)) l).
Proof.
  induction l as [|x l IH]; [reflexivity |].
  cbn [flat_map map list_sum]. now rewrite length_app, IH.
Qed.

Lemma left_join_length (vs : list resumo) (ps : list produtos) :
  List.length (left_join vs ps) = list_sum (map (fan_out ps) vs).
Proof.
  unfold left_join. rewrite flat_map_rows. f_equal.
  apply map_ext. intros v. unfold fan_out.
  destruct (filter (matches v) ps) as [|p found]; [reflexivity |].
  rewrite length_map. simpl. lia.
Qed.

Lemma fan_out_sum_ge (ps : list produtos) (vs : list resumo) :
  (List.length vs <= list_sum (map (fan_out ps) vs))%nat.
Proof.
  induction vs as [|v vs IH]; simpl; [lia |].
  unfold fan_out at 1. lia.
Qed.

Lemma left_join_covers (vs : list resumo) (ps : list produtos) (v : resumo) :
  In v vs ->
  exists r, In r (left_join vs ps) /\ produto r = v_descricaoProduto v.
Proof.
  intros Hv. unfold left_join.
  destruct (filter (matches v) ps) as [|p found] eqn:E.
  - exists (select v None). split; [| reflexivity].
    apply in_flat_map. exists v. rewrite E. simpl. auto.
  - exists (select v (Some p)). split; [| reflexivity].
    apply in_flat_map. exists v. rewrite E. simpl. auto.
Qed.

(** X9.  The stock join keeps every summarised product and repeats it once
    per matching catalog row: the frame has as many rows as the products'
    fan-outs add up to, hence at least one row per product and possibly
    more rows than products. *)
Theorem stock_rows_follow_fan_out
    (w : tables) (top_n : Z) (rows : list row) :
  analyze_stock (Some (Serving w)) top_n = Py.Ok rows ->
  List.length rows
  = list_sum (map (fan_out (produtos_mm w)) (vendas_com_media_dia top_n w))
  /\ (List.length (vendas_com_media_dia top_n w) <= List.length rows)%nat
  /\ forall v, In v (vendas_com_media_dia top_n w) ->
       exists r, In r rows /\ produto r = v_descricaoProduto v.
Proof.
  intros H. rewrite (analyze_stock_serving H). unfold query.
  rewrite (Permutation_length (SqlFacts.order_by_perm _ _)).
  rewrite left_join_length. split; [reflexivity |].
  split; [apply fan_out_sum_ge |].
  intros v Hv. destruct (left_join_covers _ (produtos_mm w) _ Hv)
    as (r & Hr & Hp).
  exists r. split; [| exact Hp]. now apply SqlFacts.order_by_In.
Qed.

Lemma summary_names_NoDup (top_n : Z) (w : tables) :
  NoDup (map v_descricaoProduto (vendas_com_media_dia top_n w)).
Proof.
  unfold vendas_com_media_dia, Sql.LIMIT. rewrite <- firstn_map.
  apply SqlFacts.NoDup_firstn.
  eapply Permutation_NoDup.
  - apply Permutation_map, Permutation_sym, SqlFacts.order_by_perm.
  - rewrite map_map. simpl. apply SqlFacts.group_by_NoDup.
Qed.

Lemma summary_length (top_n : Z) (w : tables) :
  (List.length (vendas_com_media_dia top_n w) <= Z.to_nat top_n)%nat.
Proof. unfold vendas_com_media_dia, Sql.LIMIT. apply firstn_le_length. Qed.

(** X10.  On any connection the stock frame is in descending order of
    total sold, rows without a total last, and it mentions no more distinct
    products than the number asked for. *)
Theorem stock_frame_ordered_and_bounded
    (c : option connection) (top_n : Z) (rows : list row) :
  analyze_stock c top_n = Py.Ok rows ->
  StronglySorted total_desc rows
  /\ (List.length (nodup string_dec (map produto rows))
      <= Z.to_nat top_n)%nat.
Proof.
  intros H.
  destruct (StockFacts.analyze_stock_rows _ _ H) as [-> | ->];
    [| split; [constructor | simpl; lia]].
  split.
  - unfold query. apply SqlFacts.order_by_strongly_sorted.
    + intros x y. apply RankingFacts.desc_total.
    + intros x y z. apply RankingFacts.desc_trans.
  - eapply Nat.le_trans; [| apply (summary_length top_n (tables_of c))].
    rewrite <- (length_map v_descricaoProduto).
    apply NoDup_incl_length; [apply NoDup_nodup |].
    intros name Hn. apply nodup_In in Hn. apply in_map_iff in Hn.
    destruct Hn as (r & <- & Hr).
    destruct (StockFacts.stock_query_In _ _ _ Hr)
      as (v & Hv & [[-> _] | (p & _ & _ & ->)]);
      simpl; now apply in_map.
Qed.

Lemma status_is_one_of_two (top_n : Z) (w : tables) (r : row) :
  In r (query top_n w) ->
  status_estoque r = "Em Estoque" \/ status_estoque r = "Sem Estoque".
Proof.
  intros Hr.
  destruct (StockFacts.stock_query_In _ _ _ Hr)
    as (v & _ & [[-> _] | (p & _ & _ & ->)]); simpl; auto.
Qed.

Lemma counters_partition (rows : list row) :
  (forall r, In r rows ->
     status_estoque r = "Em Estoque" \/ status_estoque r = "Sem Estoque") ->
  (com_estoque rows + sem_estoque rows = List.length rows)%nat.
Proof.
  unfold com_estoque, sem_estoque, with_status.
  induction rows as [|r rows IH]; intros H; [reflexivity |].
  assert (IH' := IH (fun x Hx => H x (or_intror Hx))).
  simpl. destruct (H r (or_introl eq_refl)) as [E | E]; rewrite E; simpl; lia.
Qed.

(** X11.  The two counters of the stock tab split the frame: every row is
    counted as in stock or as out of stock and none as both; on a frame
    with rows the rupture rate lies between 0 and 100. *)
Theorem stock_counters_split_the_frame
    (c : option connection) (top_n : Z) (rows : list row) :
  analyze_stock c top_n = Py.Ok rows ->
  (com_estoque rows + sem_estoque rows = List.length rows)%nat
  /\ (rows <> [] ->
      (0 <= taxa_de_ruptura rows)%Q /\ (taxa_de_ruptura rows <= 100)%Q).
Proof.
  intros H.
  assert (Hsum : (com_estoque rows + sem_estoque rows
                  = List.length rows)%nat).
  { destruct (StockFacts.analyze_stock_rows _ _ H) as [-> | ->];
      [| reflexivity].
    apply counters_partition. intros r. apply status_is_one_of_two. }
  split; [exact Hsum |]. intros Hne. unfold taxa_de_ruptura.
  assert (Hlen : (0 < List.length rows)%nat)
    by (destruct rows; [congruence | simpl; lia]).
  assert (Hpos : (0 < inject_Z (Z.of_nat (List.length rows)))%Q)
    by (unfold Qlt; simpl; lia).
  assert (Hs0 : (0 <= inject_Z (Z.of_nat (sem_estoque rows)))%Q)
    by (unfold Qle; simpl; lia).
  assert (Hsl : (inject_Z (Z.of_nat (sem_estoque rows))
                 <= inject_Z (Z.of_nat (List.length rows)))%Q)
    by (unfold Qle; simpl; lia).
  split.
  - apply Qmult_le_0_compat; [| discriminate].
    apply Qle_shift_div_l; [exact Hpos |]. now rewrite Qmult_0_l.
  - setoid_replace (100 : Q) with (1 * 100)%Q at 2 by reflexivity.
    apply Qmult_le_compat_r; [| discriminate].
    apply Qle_shift_div_r; [exact Hpos |]. now rewrite Qmult_1_l.
Qed.

(** X12.  A row of the low-stock panel is a matched catalog row whose
    stock is known, whose product sells a positive average per day, and
    whose stock is below seven days of that average. *)
Theorem low_stock_means_under_seven_days
    (c : option connection) (top_n : Z) (rows : list row) (r : row) :
  analyze_stock c top_n = Py.Ok rows ->
  In r (estoque_baixo rows) ->
  status_estoque r = "Em Estoque"
  /\ exists s a,
       quantidade_estoque r = Some s
       /\ media_venda_dia r = Some a
       /\ (0 < a)%Q
       /\ (s < 7 * a)%Q.
Proof.
  intros H Hr. unfold estoque_baixo in Hr. apply filter_In in Hr.
  destruct Hr as [Hr Hf]. apply andb_true_iff in Hf. destruct Hf as [Hf _].
  apply andb_true_iff in Hf. destruct Hf as [Hst Hlt].
  apply String.eqb_eq in Hst. split; [exact Hst |].
  destruct (StockFacts.analyze_stock_rows _ _ H) as [-> | ->];
    [| contradiction].
  destruct (StockFacts.stock_query_In _ _ _ Hr)
    as (v & _ & [[-> _] | (p & _ & _ & ->)]); simpl in *; [discriminate |].
  destruct (estoque p) as [s |]; [| discriminate Hlt].
  destruct (v_media_venda_dia v) as [a |]; [| discriminate Hlt].
  cbn [Sql.is_not_null andb] in Hlt.
  destruct (Sql.gt0 (Some a)) eqn:Hg; [| discriminate Hlt].
  apply StockFacts.gt0_iff in Hg.
  rewrite (StockFacts.div_positive s Hg) in Hlt. unfold lt7 in Hlt.
  exists s, a. repeat split; auto.
  unfold Sql.Qlt_bool in Hlt. apply negb_true_iff in Hlt.
  assert (Hd : (s / a < 7)%Q).
  { apply Qnot_le_lt. intros Hle. apply Qle_bool_iff in Hle. congruence. }
  assert (Ha : ~ (a == 0)%Q)
    by (intros E; rewrite E in Hg; exact (Qlt_irrefl _ Hg)).
  apply Qle_lt_trans with (a * (s / a))%Q.
  - rewrite (Qmult_div_r s a Ha). apply Qle_refl.
  - rewrite (Qmult_comm 7 a). apply Qmult_lt_l; assumption.
Qed.

End AnyRuntime.

Section OnTheLab.
#[local] Existing Instance lab.

Lemma stock_rows_follow_fan_out_witness :
  List.length (query 3 demo)
  = list_sum (map (fan_out (produtos_mm demo)) (vendas_com_media_dia 3 demo))
  /\ (List.length (vendas_com_media_dia 3 demo)
      <= List.length (query 3 demo))%nat
  /\ forall v, In v (vendas_com_media_dia 3 demo) ->
       exists r, In r (query 3 demo) /\ produto r = v_descricaoProduto v.
Proof.
  apply (stock_rows_follow_fan_out (w := demo) (top_n := 3)). reflexivity.
Defined.

Lemma stock_frame_ordered_and_bounded_witness :
  StronglySorted total_desc (query 2 demo)
  /\ (List.length (nodup string_dec (map produto (query 2 demo)))
      <= Z.to_nat 2)%nat.
Proof.
  apply (stock_frame_ordered_and_bounded demo_connection 2). reflexivity.
Defined.

Lemma stock_counters_split_the_frame_witness :
  (com_estoque (query 3 demo) + sem_estoque (query 3 demo)
   = List.length (query 3 demo))%nat
  /\ (query 3 demo <> [] ->
      (0 <= taxa_de_ruptura (query 3 demo))%Q
      /\ (taxa_de_ruptura (query 3 demo) <= 100)%Q).
Proof.
  apply (stock_counters_split_the_frame demo_connection 3). reflexivity.
Defined.

Lemma low_stock_means_under_seven_days_witness :
  status_estoque demo_parafuso = "Em Estoque"
  /\ exists s a,
       quantidade_estoque demo_parafuso = Some s
       /\ media_venda_dia demo_parafuso = Some a
       /\ (0 < a)%Q
       /\ (s < 7 * a)%Q.
Proof.
  apply (low_stock_means_under_seven_days demo_connection 3
           (rows := query 3 demo)).
  - reflexivity.
  - vm_compute. left. reflexivity.
Defined.

End OnTheLab.

End StockMore.

(** ** More on the seasonality view *)

Module SeasonalityMore.

Import Seasonality Spec Vocabulary.
Local Open Scope string_scope.

Section AnyRuntime.
Context {rt : runtime}.

(** What the function can return: the primary answer when it has rows,
    otherwise the grouped fallback, otherwise nothing. *)
Lemma seasonality_rows (c : option connection) (top_n : Z)
    (rows : list row) :
  get_seasonality_data c top_n = Py.Ok rows ->
  (rows = query top_n (tables_of c) /\ rows <> [])
  \/ (query top_n (tables_of c) = []
      /\ exists cols,
           with_mes_num (query_alt top_n (tables_of c)) = Py.Ok cols
           /\ rows = groupby_sum cols)
  \/ rows = [].
Proof.
  destruct c as [[w | e] |]; simpl;
    try (intros H; injection H as <-; now right; right).
  destruct (query top_n w) as [|r df] eqn:Eq; simpl.
  - destruct (query_alt top_n w) as [|a alt] eqn:Ea; simpl.
    + intros H; injection H as <-. now right; right.
    + unfold synthesize.
      destruct (with_mes_num (a :: alt)) as [cols | e] eqn:Ec; simpl;
        intros H; injection H as <-.
      * right; left. split; [reflexivity |]. now exists cols.
      * now right; right.
  - intros H; injection H as <-. left. split; [reflexivity | discriminate].
Qed.

Lemma query_cells_NoDup (top_n : Z) (w : tables) :
  NoDup (map cell (query top_n w)).
Proof.
  unfold query. eapply Permutation_NoDup.
  - apply Permutation_map, Permutation_sym, SqlFacts.order_by_perm.
  - rewrite map_map. unfold cell. simpl.
    rewrite (map_ext _ fst) by (now intros [[a b] l]).
    apply SqlFacts.group_by_NoDup.
Qed.

Lemma groupby_cells_NoDup (cols : list (alt_row * Z)) :
  NoDup (map cell (groupby_sum cols)).
Proof.
  unfold groupby_sum. eapply Permutation_NoDup.
  - apply Permutation_map, Permutation_sym, SqlFacts.order_by_perm.
  - rewrite map_map. unfold cell. simpl.
    rewrite (map_ext _ fst) by (now intros [[a b] l]).
    apply SqlFacts.group_by_NoDup.
Qed.

(** X14.  Whatever path answers, the seasonality frame has one row per
    product and month: no (product, month) pair occurs twice. *)
Theorem one_row_per_product_and_month
    (c : option connection) (top_n : Z) (rows : list row) :
  get_seasonality_data c top_n = Py.Ok rows ->
  NoDup (map cell rows).
Proof.
  intros H.
  destruct (seasonality_rows _ _ H)
    as [[-> _] | [(_ & cols & _ & ->) | ->]].
  - apply query_cells_NoDup.
  - apply groupby_cells_NoDup.
  - constructor.
Qed.

Lemma top_produtos_length (top_n : Z) (w : tables) :
  (List.length (top_produtos top_n w) <= Z.to_nat top_n)%nat.
Proof.
  unfold top_produtos, Sql.LIMIT. rewrite length_map.
  apply firstn_le_length.
Qed.

Lemma top_produtos_alt_length (top_n : Z) (w : tables) :
  (List.length (top_produtos_alt top_n w) <= Z.to_nat top_n)%nat.
Proof.
  unfold top_produtos_alt, Sql.LIMIT. rewrite length_map.
  apply firstn_le_length.
Qed.

(** A row of the primary answer stands for a dated sale line of one of the
    top products. *)
Lemma query_row_origin (top_n : Z) (w : tables) (r : row) :
  In r (query top_n w) ->
  exists x t,
    In x (itens_venda_mm w)
    /\ descricaoProduto x = Some (produto r)
    /\ data x = Some t
    /\ mes r = DATE_FORMAT_yyyy_MM t
    /\ In (produto r) (top_produtos top_n w).
Proof.
  unfold query. rewrite SqlFacts.order_by_In, in_map_iff.
  intros (g & <- & Hg). simpl.
  destruct (SqlFacts.group_by_In _ _ _ _ Hg) as (_ & x & Hx & E).
  apply filter_In in Hx. destruct Hx as [Hx Hf].
  apply andb_true_iff in Hf. destruct Hf as [Hin Hd].
  unfold is_in in Hin. rewrite <- E. unfold month_key, name. simpl.
  destruct (descricaoProduto x) as [d |] eqn:Ed; [| discriminate].
  destruct (data x) as [t |] eqn:Et; [| discriminate].
  exists x, t. repeat split; auto.
  apply existsb_exists in Hin. destruct Hin as (tp & Htp & Heq).
  apply String.eqb_eq in Heq. now subst.
Qed.

Lemma query_alt_origin (top_n : Z) (w : tables) (a : alt_row) :
  In a (query_alt top_n w) -> In (alt_produto a) (top_produtos_alt top_n w).
Proof.
  unfold query_alt. rewrite in_flat_map. intros (iv & _ & Ha).
  apply in_map_iff in Ha. destruct Ha as (tp & <- & Htp).
  apply filter_In in Htp. simpl. tauto.
Qed.

Lemma distinct_within {A} (dec : forall x y : A, {x = y} + {x <> y})
    (names pool : list A) (bound : nat) :
  (forall x, In x names -> In x pool) ->
  (List.length pool <= bound)%nat ->
  (List.length (nodup dec names) <= bound)%nat.
Proof.
  intros Hsub Hlen. eapply Nat.le_trans; [| exact Hlen].
  apply NoDup_incl_length; [apply NoDup_nodup |].
  intros x Hx. apply Hsub. now apply nodup_In in Hx.
Qed.

(** X15.  The seasonality frame never mentions more distinct products than
    the number asked for, whichever path answers. *)
Theorem seasonality_has_at_most_top_n_products
    (c : option connection) (top_n : Z) (rows : list row) :
  get_seasonality_data c top_n = Py.Ok rows ->
  (List.length (nodup string_dec (map produto rows)) <= Z.to_nat top_n)%nat.
Proof.
  intros H.
  destruct (seasonality_rows _ _ H)
    as [[-> _] | [(_ & cols & Hc & ->) | ->]].
  - apply distinct_within with (pool := top_produtos top_n (tables_of c));
      [| apply top_produtos_length].
    intros p Hp. apply in_map_iff in Hp. destruct Hp as (r & <- & Hr).
    destruct (query_row_origin _ _ _ Hr) as (_ & _ & _ & _ & _ & _ & Hin).
    exact Hin.
  - apply distinct_within
      with (pool := top_produtos_alt top_n (tables_of c));
      [| apply top_produtos_alt_length].
    intros p Hp. apply in_map_iff in Hp. destruct Hp as (r & <- & Hr).
    destruct (SeasonalityFacts.groupby_sum_In _ _ Hr)
      as ([a b] & Hin & -> & _).
    destruct (SeasonalityFacts.column_In _ _ _ _ Hc Hin) as [Ha _].
    now apply query_alt_origin.
  - simpl. lia.
Qed.

(** X16.  When the primary query answers, every row stands for a month in
    which the product was really sold: some sale line of that product has
    a date in that month.  Months without sales get no row. *)
Theorem primary_rows_are_sold_months
    (w : tables) (top_n : Z) (rows : list row) (r : row) :
  get_seasonality_data (Some (Serving w)) top_n = Py.Ok rows ->
  query top_n w <> [] ->
  In r rows ->
  exists x t,
    In x (itens_venda_mm w)
    /\ descricaoProduto x = Some (produto r)
    /\ data x = Some t
    /\ mes r = DATE_FORMAT_yyyy_MM t.
Proof.
  intros H Hne Hr.
  destruct (seasonality_rows _ _ H)
    as [[-> _] | [(Hq & _) | ->]]; simpl in *;
    [| contradiction | contradiction].
  destruct (query_row_origin _ _ _ Hr) as (x & t & H1 & H2 & H3 & H4 & _).
  now exists x, t.
Qed.

(** Dividing by a largest id of zero gives a NaN or an infinity, which
    the cast refuses. *)
Lemma mes_num_zero_max (i : Z) :
  mes_num i 0 = Py.Raise (Py.Exception "Cannot convert non-finite values").
Proof.
  unfold mes_num, astype_int, scaled.
  change (float64 0) with (S754_zero false).
  replace (float64 12) with (S754_finite false 6755399441055744 (-49))
    by (vm_compute; reflexivity).
  destruct (float64 i) as [s | s | | s m e]; try reflexivity;
    destruct s; reflexivity.
Qed.

(** X17.  The fallback needs every sale id: if the primary query is empty
    and one row of the fallback frame has no sale id, or the largest sale
    id is zero, the integer cast fails and the function returns no rows at
    all, also for the products whose ids are fine. *)
Theorem one_missing_sale_id_empties_the_view (w : tables) (top_n : Z) :
  query top_n w = [] ->
  (exists r, In r (query_alt top_n w) /\ alt_vendaId r = None)
  \/ max_venda (query_alt top_n w) = Some 0%Z ->
  get_seasonality_data (Some (Serving w)) top_n = Py.Ok [].
Proof.
  intros Hq Hbad.
  assert (Hraise : exists e,
            with_mes_num (query_alt top_n w) = Py.Raise e).
  { unfold with_mes_num. destruct Hbad as [(r & Hr & Hnone) | Hmax].
    - apply SeasonalityFacts.column_raises with (r := r)
        (e := Py.Exception "Cannot convert non-finite values");
        [exact Hr |].
      unfold mes_num_cell. now rewrite Hnone.
    - rewrite Hmax.
      destruct (query_alt top_n w) as [|r df] eqn:E; [discriminate Hmax |].
      apply SeasonalityFacts.column_raises with (r := r)
        (e := Py.Exception "Cannot convert non-finite values");
        [now left |].
      unfold mes_num_cell.
      destruct (alt_vendaId r); [apply mes_num_zero_max | reflexivity]. }
  destruct Hraise as (e & He).
  now apply SeasonalityFacts.fallback_raises_no_rows with e.
Qed.

End AnyRuntime.

Section OnTheLab.
#[local] Existing Instance lab.

Lemma one_row_per_product_and_month_witness :
  NoDup (map cell (query 2 demo)).
Proof.
  apply (one_row_per_product_and_month demo_connection 2). reflexivity.
Defined.

Lemma seasonality_has_at_most_top_n_products_witness :
  (List.length (nodup string_dec (map produto (query 2 demo)))
   <= Z.to_nat 2)%nat.
Proof.
  apply (seasonality_has_at_most_top_n_products demo_connection 2).
  reflexivity.
Defined.

Lemma primary_rows_are_sold_months_witness :
  exists x t,
    In x (itens_venda_mm demo)
    /\ descricaoProduto x = Some (produto arruela_march)
    /\ data x = Some t
    /\ mes arruela_march = DATE_FORMAT_yyyy_MM t.
Proof.
  apply (primary_rows_are_sold_months demo 2 (rows := query 2 demo)).
  - reflexivity.
  - vm_compute. discriminate.
  - vm_compute. left. reflexivity.
Defined.

Lemma one_missing_sale_id_empties_the_view_witness :
  get_seasonality_data (Some (Serving anonymous)) 2 = Py.Ok [].
Proof.
  apply (one_missing_sale_id_empties_the_view anonymous 2).
  - reflexivity.
  - left. eexists. split; [right; left; reflexivity | reflexivity].
Defined.

End OnTheLab.

End SeasonalityMore.

(** ** More on the currency column *)

Module CurrencyMore.

Import Currency Spec Vocabulary.
Local Open Scope string_scope.

Lemma formatted_is_fixed2 (q : Q) :
  valor_total_formatado (Some q) = "R$ " ++ fixed2 "." "," q.
Proof.
  unfold valor_total_formatado, format_comma_2f.
  change (swap ("R$ " ++ fixed2 "," "." q) = "R$ " ++ fixed2 "." "," q).
  now rewrite CurrencyFacts.swap_app, CurrencyFacts.swap_fixed2.
Qed.

Lemma grouped_rev_chars (P : ascii -> Prop) (sep : ascii) (l : list ascii)
    (k : nat) :
  P sep -> Forall P l -> Forall P (grouped_rev sep l k).
Proof.
  intros Hsep Hl. revert k. induction Hl as [|c l Hc _ IH]; intros k; simpl.
  - constructor.
  - destruct k as [|[|[|[|k]]]]; repeat constructor; auto.
Qed.

Lemma occurs_chars (c : ascii) (l : list ascii) :
  Forall (fun d => Ascii.eqb d c = false) l ->
  occurs c (string_of_list_ascii l) = false.
Proof.
  induction 1 as [|d l Hd _ IH]; simpl; [reflexivity |].
  now rewrite Hd, IH.
Qed.

Lemma occurs_app (c : ascii) (s t : string) :
  occurs c (s ++ t) = occurs c s || occurs c t.
Proof.
  induction s as [|d s IH]; simpl; [reflexivity |].
  now rewrite IH, orb_assoc.
Qed.

Lemma digit_is_not (c d : ascii) :
  is_digit c = false -> is_digit d = true -> Ascii.eqb d c = false.
Proof.
  intros Hc Hd. destruct (Ascii.eqb_spec d c); [congruence | reflexivity].
Qed.

(** In the grouped integer part only digits and the separator occur. *)
Lemma grouped_avoids (c sep : ascii) (s : string) :
  is_digit c = false -> Ascii.eqb sep c = false -> all_digits s ->
  occurs c (grouped sep s) = false.
Proof.
  intros Hc Hsep Hs. unfold grouped. apply occurs_chars.
  apply Forall_rev. apply grouped_rev_chars; [exact Hsep |].
  apply Forall_rev. unfold all_digits in Hs.
  eapply Forall_impl; [| exact Hs]. intros d. now apply digit_is_not.
Qed.

Lemma without_of_list (sep : ascii) (l : list ascii) :
  without sep (string_of_list_ascii l)
  = string_of_list_ascii (filter (fun c => negb (Ascii.eqb c sep)) l).
Proof.
  induction l as [|c l IH]; simpl; [reflexivity |].
  destruct (Ascii.eqb c sep); simpl; now rewrite IH.
Qed.

Lemma without_app (sep : ascii) (s t : string) :
  without sep (s ++ t) = without sep s ++ without sep t.
Proof.
  induction s as [|c s IH]; simpl; [reflexivity |].
  destruct (Ascii.eqb c sep); simpl; now rewrite IH.
Qed.

Lemma grouped_rev_strip (sep : ascii) (l : list ascii) (k : nat) :
  Forall (fun c => Ascii.eqb c sep = false) l ->
  filter (fun c => negb (Ascii.eqb c sep)) (grouped_rev sep l k) = l.
Proof.
  intros H. revert k. induction H as [|c l Hc _ IH]; intros k; simpl.
  - reflexivity.
  - destruct k as [|[|[|[|k]]]]; simpl;
      rewrite ?Ascii.eqb_refl, ?Hc; simpl; now rewrite IH.
Qed.

Lemma filter_rev {A} (f : A -> bool) (l : list A) :
  filter f (rev l) = rev (filter f l).
Proof.
  induction l as [|x l IH]; simpl; [reflexivity |].
  rewrite filter_app, IH. simpl. destruct (f x); simpl.
  - reflexivity.
  - now rewrite app_nil_r.
Qed.

(** Taking the separators out of a grouped digit string gives the digits
    back. *)
Lemma grouped_strip (sep : ascii) (s : string) :
  is_digit sep = false -> all_digits s -> without sep (grouped sep s) = s.
Proof.
  intros Hsep Hs. unfold grouped.
  rewrite without_of_list, filter_rev, grouped_rev_strip.
  - rewrite rev_involutive. apply string_of_list_ascii_of_string.
  - apply Forall_rev. unfold all_digits in Hs.
    eapply Forall_impl; [| exact Hs]. intros d. now apply digit_is_not.
Qed.

Lemma length_of_concat (front back : string) :
  String.length (front ++ back)
  = (String.length front + String.length back)%nat.
Proof.
  induction front as [|c front IH]; simpl; [reflexivity |]. now rewrite IH.
Qed.

Lemma zero_padded_length (w : nat) (n : Z) :
  String.length (Sql.zero_padded w n) = w.
Proof.
  revert n; induction w as [|w IH]; intros n; simpl; [reflexivity |].
  rewrite length_of_concat, IH. simpl. lia.
Qed.

(** X18.  The formatted value is "R$ ", a body, a comma and two digits.
    The body holds no comma and no letter X, so the comma is the only one
    and the placeholder of the replacements never shows; taking the dots
    out of the body leaves the sign and the plain integer digits. *)
Theorem formatted_value_shape (q : Q) :
  exists body decimals,
    valor_total_formatado (Some q) = "R$ " ++ body ++ String "," decimals
    /\ String.length decimals = 2%nat
    /\ all_digits decimals
    /\ occurs "," body = false
    /\ occurs "X" body = false
    /\ without "." body
       = (if Sql.Qlt_bool q 0 then "-" else EmptyString)
           ++ digits (round_half_even (Qabs q * 100) / 100).
Proof.
  exists ((if Sql.Qlt_bool q 0 then "-" else EmptyString)
            ++ grouped "." (digits (round_half_even (Qabs q * 100) / 100))),
         (Sql.zero_padded 2 (round_half_even (Qabs q * 100) mod 100)).
  assert (Hd : all_digits (digits (round_half_even (Qabs q * 100) / 100)))
    by apply CurrencyFacts.string_of_uint_digits.
  split; [| split; [| split; [| split; [| split]]]].
  - rewrite formatted_is_fixed2. unfold fixed2.
    now destruct (Sql.Qlt_bool q 0).
  - apply zero_padded_length.
  - apply CurrencyFacts.zero_padded_digits.
  - rewrite occurs_app, grouped_avoids by (reflexivity || exact Hd).
    now destruct (Sql.Qlt_bool q 0).
  - rewrite occurs_app, grouped_avoids by (reflexivity || exact Hd).
    now destruct (Sql.Qlt_bool q 0).
  - rewrite without_app, grouped_strip by (reflexivity || exact Hd).
    now destruct (Sql.Qlt_bool q 0).
Qed.

(** *** Reading the printed digits back *)

Lemma round_half_even_close (x : Q) :
  (0 <= x)%Q ->
  (0 <= round_half_even x)%Z
  /\ (Qabs (inject_Z (round_half_even x) - x) <= 1 # 2)%Q.
Proof.
  intros Hx.
  pose proof (Qfloor_le x) as Hlo. pose proof (Qlt_floor x) as Hhi.
  rewrite inject_Z_plus in Hhi. change (inject_Z 1) with 1%Q in Hhi.
  assert (Hf : (0 <= Qfloor x)%Z).
  { rewrite <- (Qfloor_Z 0). now apply Qfloor_resp_le. }
  unfold round_half_even.
  destruct (Qcompare_spec (x - inject_Z (Qfloor x)) (1 # 2)) as [E | L | G].
  - assert (Hd : (Qabs (inject_Z (Qfloor x) - x) <= 1 # 2)%Q)
      by (apply Qabs_Qle_condition; split; lra).
    assert (Hu : (Qabs (inject_Z (Qfloor x + 1) - x) <= 1 # 2)%Q).
    { rewrite inject_Z_plus. change (inject_Z 1) with 1%Q.
      apply Qabs_Qle_condition; split; lra. }
    destruct (Z.even (Qfloor x)); split; auto; lia.
  - split; [exact Hf |]. apply Qabs_Qle_condition; split; lra.
  - split; [lia |]. rewrite inject_Z_plus. change (inject_Z 1) with 1%Q.
    apply Qabs_Qle_condition; split; lra.
Qed.

Lemma read_digits_app (acc : Z) (s t : string) :
  read_digits acc (s ++ t) = read_digits (read_digits acc s) t.
Proof.
  revert acc; induction s as [|c s IH]; intros acc; simpl; [reflexivity |].
  destruct (digit_value c); apply IH.
Qed.

(** A character that is no digit is not read. *)
Lemma read_digits_skips (sep : ascii) (s : string) (acc : Z) :
  digit_value sep = None ->
  read_digits acc (without sep s) = read_digits acc s.
Proof.
  intros Hsep. revert acc; induction s as [|c s IH]; intros acc; simpl;
    [reflexivity |].
  destruct (Ascii.eqb_spec c sep) as [-> | _].
  - rewrite Hsep. apply IH.
  - simpl. destruct (digit_value c); apply IH.
Qed.

Lemma read_uint_acc (d : Decimal.uint) (acc : positive) :
  read_digits (Z.pos acc) (NilEmpty.string_of_uint d)
  = Z.pos (Pos.of_uint_acc d acc).
Proof.
  revert acc; induction d; intros acc;
    cbn [NilEmpty.string_of_uint read_digits Pos.of_uint_acc];
    [reflexivity | ..];
    match goal with
    | |- context [digit_value ?c] =>
        let v := eval vm_compute in (digit_value c) in
        change (digit_value c) with v; cbv iota
    end;
    rewrite <- IHd; f_equal; lia.
Qed.

Lemma read_uint (d : Decimal.uint) :
  read_digits 0 (NilEmpty.string_of_uint d) = Z.of_N (Pos.of_uint d).
Proof.
  induction d;
    cbn [NilEmpty.string_of_uint read_digits Pos.of_uint];
    [reflexivity | ..];
    match goal with
    | |- context [digit_value ?c] =>
        let v := eval vm_compute in (digit_value c) in
        change (digit_value c) with v; cbv iota
    end;
    [exact IHd | ..];
    match goal with
    | |- read_digits ?k _ = _ =>
        let p := eval vm_compute in (Z.to_pos k) in
        change k with (Z.pos p)
    end;
    rewrite read_uint_acc; reflexivity.
Qed.

(** The integer digits read back give the integer. *)
Lemma read_integer_digits (n : Z) :
  (0 <= n)%Z -> read_digits 0 (digits n) = n.
Proof.
  intros Hn. unfold digits. rewrite read_uint.
  change (Pos.of_uint (N.to_uint (Z.to_N n)))
    with (N.of_uint (N.to_uint (Z.to_N n))).
  rewrite DecimalN.Unsigned.of_to. now apply Z2N.id.
Qed.

Lemma digit_value_digit (d : Z) :
  digit_value (Sql.digit d) = Some (d mod 10)%Z.
Proof.
  unfold Sql.digit. pose proof (Z.mod_pos_bound d 10 eq_refl) as Hb.
  assert (H : exists k, (k < 10)%nat /\ (d mod 10)%Z = Z.of_nat k).
  { exists (Z.to_nat (d mod 10)). lia. }
  destruct H as (k & Hk & ->). rewrite Nat2Z.id.
  do 10 (destruct k as [|k]; [reflexivity |]). lia.
Qed.

(** The two decimals read back give the cents below one hundred. *)
Lemma read_two_decimals (acc m : Z) :
  (0 <= m < 100)%Z ->
  read_digits acc (Sql.zero_padded 2 m) = (100 * acc + m)%Z.
Proof.
  intros Hm. cbn [Sql.zero_padded append read_digits].
  rewrite !digit_value_digit.
  rewrite (Z.mod_small (m / 10) 10)
    by (split; [apply Z.div_pos | apply Z.div_lt_upper_bound]; lia).
  pose proof (Z.div_mod m 10). lia.
Qed.

Lemma printed_cents_value (q : Q) :
  printed_cents (valor_total_formatado (Some q))
  = round_half_even (Qabs q * 100).
Proof.
  assert (Hx : (0 <= Qabs q * 100)%Q)
    by (apply Qmult_le_0_compat; [apply Qabs_nonneg | discriminate]).
  destruct (round_half_even_close Hx) as [Hc _].
  set (cents := round_half_even (Qabs q * 100)) in *.
  unfold printed_cents. rewrite formatted_is_fixed2. unfold fixed2.
  fold cents. cbn [append read_digits].
  change (digit_value "R") with (@None Z).
  change (digit_value "$") with (@None Z).
  change (digit_value " ") with (@None Z). cbv iota.
  assert (Hint : read_digits 0
            ((if Sql.Qlt_bool q 0 then "-" else EmptyString)
               ++ grouped "." (digits (cents / 100))
               ++ String "," (Sql.zero_padded 2 (cents mod 100)))
          = read_digits (cents / 100)
              (String "," (Sql.zero_padded 2 (cents mod 100)))).
  { rewrite !read_digits_app. f_equal.
    replace (read_digits 0 (if Sql.Qlt_bool q 0 then "-" else EmptyString))
      with 0%Z by (now destruct (Sql.Qlt_bool q 0)).
    rewrite <- (read_digits_skips "." (grouped "." _)) by reflexivity.
    rewrite grouped_strip
      by (reflexivity || apply CurrencyFacts.string_of_uint_digits).
    apply read_integer_digits. apply Z.div_pos; lia. }
  rewrite Hint. cbn [read_digits].
  change (digit_value ",") with (@None Z). cbv iota.
  rewrite read_two_decimals by (apply Z.mod_pos_bound; lia).
  pose proof (Z.div_mod cents 100). lia.
Qed.

(** X19.  The digits the formatter prints, read back as one number, are a
    number of cents that is not negative and lies within half a cent of
    the absolute value being formatted; a minus sign is printed exactly
    for the values below zero. *)
Theorem printed_cents_within_half_a_cent (q : Q) :
  (0 <= printed_cents (valor_total_formatado (Some q)))%Z
  /\ (Qabs (inject_Z (printed_cents (valor_total_formatado (Some q)))
            - Qabs q * 100) <= 1 # 2)%Q
  /\ occurs "-" (valor_total_formatado (Some q)) = Sql.Qlt_bool q 0.
Proof.
  assert (Hx : (0 <= Qabs q * 100)%Q)
    by (apply Qmult_le_0_compat; [apply Qabs_nonneg | discriminate]).
  rewrite printed_cents_value.
  destruct (round_half_even_close Hx) as [Hc Hd].
  split; [exact Hc |]. split; [exact Hd |].
  rewrite formatted_is_fixed2. unfold fixed2.
  rewrite !occurs_app.
  rewrite grouped_avoids
    by (reflexivity || apply CurrencyFacts.string_of_uint_digits).
  assert (Hdec : occurs "-" (String ","
            (Sql.zero_padded 2 (round_half_even (Qabs q * 100) mod 100)))
          = false).
  { cbn [occurs]. change (Ascii.eqb "," "-") with false. cbn [orb].
    rewrite <- (string_of_list_ascii_of_string (Sql.zero_padded 2 _)).
    apply occurs_chars.
    eapply Forall_impl; [| apply CurrencyFacts.zero_padded_digits].
    intros d. now apply digit_is_not. }
  rewrite Hdec. now destruct (Sql.Qlt_bool q 0).
Qed.

(** The value of C5 read back: 123450 cents. *)
Example printed_cents_of_1234_50 :
  printed_cents (valor_total_formatado (Some (2469 # 2))) = 123450%Z.
Proof. vm_compute. reflexivity. Qed.

End CurrencyMore.

(** ** The name match of the stock join *)

Module MatchFacts.

Import Sql Spec Vocabulary.
Local Open Scope string_scope.

Lemma ltrim_spaces (a : nat) (s : string) : ltrim (spaces a ++ s) = ltrim s.
Proof. induction a as [|a IH]; simpl; auto. Qed.

Lemma rtrim_only_spaces (b : nat) : rtrim (spaces b) = EmptyString.
Proof. induction b as [|b IH]; simpl; [reflexivity |]. now rewrite IH. Qed.

Lemma rtrim_spaces (s : string) (b : nat) : rtrim (s ++ spaces b) = rtrim s.
Proof.
  induction s as [|c s IH]; simpl; [apply rtrim_only_spaces |].
  now rewrite IH.
Qed.

Lemma TRIM_right_padding (s : string) (b : nat) :
  TRIM (s ++ spaces b) = TRIM s.
Proof.
  unfold TRIM. induction s as [|c s IH]; simpl.
  - assert (E : ltrim (spaces b) = EmptyString).
    { induction b as [|b IHb]; simpl; auto. }
    now rewrite E.
  - destruct (is_space c); [exact IH |].
    change (String c (s ++ spaces b)) with (String c s ++ spaces b).
    apply rtrim_spaces.
Qed.

Lemma is_space_lower (c : ascii) : is_space (lower_ascii c) = is_space c.
Proof. destruct c as [[] [] [] [] [] [] [] []]; reflexivity. Qed.

Lemma lower_ascii_twice (c : ascii) :
  lower_ascii (lower_ascii c) = lower_ascii c.
Proof. destruct c as [[] [] [] [] [] [] [] []]; reflexivity. Qed.

Lemma LOWER_ascii_twice (s : string) :
  LOWER_ascii (LOWER_ascii s) = LOWER_ascii s.
Proof.
  induction s as [|c s IH]; simpl; [reflexivity |].
  now rewrite lower_ascii_twice, IH.
Qed.

Lemma ltrim_LOWER_ascii (s : string) :
  ltrim (LOWER_ascii s) = LOWER_ascii (ltrim s).
Proof.
  induction s as [|c s IH]; simpl; [reflexivity |].
  rewrite is_space_lower. now destruct (is_space c).
Qed.

Lemma rtrim_LOWER_ascii (s : string) :
  rtrim (LOWER_ascii s) = LOWER_ascii (rtrim s).
Proof.
  induction s as [|c s IH]; simpl; [reflexivity |].
  rewrite IH, is_space_lower.
  destruct (rtrim s) as [|d r]; simpl; [| reflexivity].
  now destruct (is_space c).
Qed.

Lemma TRIM_LOWER_ascii (s : string) :
  TRIM (LOWER_ascii s) = LOWER_ascii (TRIM s).
Proof. unfold TRIM. now rewrite ltrim_LOWER_ascii, rtrim_LOWER_ascii. Qed.

(** The laboratory's [LOWER] is the ASCII fold itself. *)
Lemma lab_folds_ascii : folds_ascii (rt := lab).
Proof. intros s. apply LOWER_ascii_twice. Qed.

Section AnyRuntime.
Context {rt : runtime}.

(** X20.  The match rule of the stock join does not see spaces around a
    name nor, on an engine whose [LOWER] folds the ASCII letters, the case
    of those letters: a sale name, the same name padded with spaces on
    either side, and its lower-cased form match exactly the same catalog
    rows. *)
Theorem match_ignores_padding_and_case
    (sale_name : string) (a b : nat) (p : produtos) :
  Stock.folded (spaces a ++ sale_name ++ spaces b) = Stock.folded sale_name
  /\ (folds_ascii ->
      Stock.folded (LOWER_ascii sale_name) = Stock.folded sale_name)
  /\ (name_match (spaces a ++ sale_name ++ spaces b) p
      <-> name_match sale_name p)
  /\ (folds_ascii ->
      (name_match (LOWER_ascii sale_name) p <-> name_match sale_name p)).
Proof.
  assert (Hpad : Stock.folded (spaces a ++ sale_name ++ spaces b)
                 = Stock.folded sale_name).
  { unfold Stock.folded. f_equal. unfold TRIM at 1.
    rewrite ltrim_spaces. apply TRIM_right_padding. }
  assert (Hcase : folds_ascii ->
            Stock.folded (LOWER_ascii sale_name) = Stock.folded sale_name).
  { intros Hfold. unfold Stock.folded. rewrite TRIM_LOWER_ascii.
    apply Hfold. }
  unfold name_match. rewrite Hpad.
  split; [reflexivity |]. split; [exact Hcase |]. split; [tauto |].
  intros Hfold. rewrite (Hcase Hfold). tauto.
Qed.

End AnyRuntime.

Section OnTheLab.
#[local] Existing Instance lab.

(** On the laboratory engine, whose [LOWER] is the ASCII fold, all four
    facts hold outright. *)
Lemma match_ignores_padding_and_case_witness :
  Stock.folded (spaces 2 ++ "Parafuso" ++ spaces 1) = Stock.folded "Parafuso"
  /\ Stock.folded (LOWER_ascii "Parafuso") = Stock.folded "Parafuso"
  /\ (name_match (spaces 2 ++ "Parafuso" ++ spaces 1) catalog_parafuso
      <-> name_match "Parafuso" catalog_parafuso)
  /\ (name_match (LOWER_ascii "Parafuso") catalog_parafuso
      <-> name_match "Parafuso" catalog_parafuso).
Proof.
  destruct (match_ignores_padding_and_case "Parafuso" 2 1 catalog_parafuso)
    as (Hpad & Hcase & Hpadm & Hcasem).
  split; [exact Hpad |]. split; [exact (Hcase lab_folds_ascii) |].
  split; [exact Hpadm | exact (Hcasem lab_folds_ascii)].
Defined.

End OnTheLab.

End MatchFacts.
